(** * Staking simulation operations (x/staking/simulation/operations.go)

    A shallow embedding of the five randomized operation generators
    [SimulateMsgCreateValidator], [SimulateMsgEditValidator],
    [SimulateMsgDelegate], [SimulateMsgUndelegate] and
    [SimulateMsgBeginRedelegate], together with the collaborators they call.

    The generators thread a pseudo-random source [r *rand.Rand] and may
    panic (index out of range, nil dereference, division by zero); both
    effects are made explicit by the monad [M] below.  Stateful collaborators
    (the staking keeper, the account keeper, the application that delivers
    transactions) are records of query functions, as the Go code receives
    them; the pure helpers of the sdk are functions on [Z]. *)

From Stdlib Require Import ZArith List String Ascii Bool Lia.
Import ListNotations.

Local Open Scope string_scope.
Local Open Scope Z_scope.

(** ** Results, panics and the random source *)

(** A Go call either returns or panics. *)
Inductive Res (A : Type) : Type :=
| Ok (a : A)
| Panic (reason : string).
Arguments Ok {A} a.
Arguments Panic {A} reason.

Module rand.

(** [*rand.Rand]: the source is a tape of raw draws; every request consumes
    the head of the tape, and an exhausted tape keeps answering 0.  Any
    sequence of in-range answers is the image of some tape, so a statement
    quantified over all tapes covers every behaviour of the generator. *)
Definition Rand : Type := list Z.

Definition next (r : Rand) : Z * Rand :=
  match r with
  | [] => (0, [])
  | x :: r' => (x, r')
  end.

End rand.

(** Computations that read the random source and may panic. *)
Definition M (A : Type) : Type := rand.Rand -> Res (A * rand.Rand).

Definition ret {A} (a : A) : M A := fun r => Ok (a, r).

Definition bind {A B} (m : M A) (k : A -> M B) : M B :=
  fun r => match m r with
           | Ok (a, r') => k a r'
           | Panic s => Panic s
           end.

(** A pure call that may panic, run inside [M]. *)
Definition lift {A} (x : Res A) : M A :=
  fun r => match x with
           | Ok a => Ok (a, r)
           | Panic s => Panic s
           end.

Declare Scope go_scope.
Delimit Scope go_scope with go.
Notation "x <- m ;; k" := (bind m (fun x => k))
  (at level 100, m at next level, right associativity) : go_scope.
Notation "' p <- m ;; k" := (bind m (fun x => match x with p => k end))
  (at level 100, p pattern, m at next level, right associativity) : go_scope.
Local Open Scope go_scope.

(** Slice indexing [s[i]]: out of range is a run-time panic. *)
Definition index {A} (s : list A) (i : Z) : Res A :=
  if i <? 0 then Panic "index out of range"
  else match nth_error s (Z.to_nat i) with
       | Some a => Ok a
       | None => Panic "index out of range"
       end.

Definition len {A} (s : list A) : Z := Z.of_nat (List.length s).

(** A method call through a nil interface value. *)
Definition deref {A} (x : option A) : Res A :=
  match x with
  | Some a => Ok a
  | None => Panic "invalid memory address or nil pointer dereference"
  end.

(** Go's [error]: nil or a message. *)
Definition error : Type := string.

(** ** math/rand and math/big draws *)

Module Import mathrand.

(** [r.Intn(n)]: a value in [[0, n)]; panics when [n <= 0]. *)
Definition Intn (n : Z) : M Z :=
  fun r =>
    if n <=? 0 then Panic "invalid argument to Intn"
    else let (x, r') := rand.next r in Ok (x mod n, r').

(** [new(big.Int).Rand(r, n)]: a value in [[0, n)], and 0 without reading
    the source when [n <= 0]. *)
Definition bigRand (n : Z) : M Z :=
  fun r =>
    if n <=? 0 then Ok (0, r)
    else let (x, r') := rand.next r in Ok (x mod n, r').

End mathrand.

(** ** sdk types: Int, Dec, Coin, Coins, addresses *)

Module sdk.

(** Modelled from the spec: package types of the sdk (Int, Dec, Coin, Coins,
    addresses, Context) is not under src/.  [sdk.Int] wraps a big integer;
    the 255-bit limit past which its operations panic is left out. *)
Definition Int : Type := Z.

Definition OneInt : Int := 1.
Definition ZeroInt : Int := 0.

Definition Int_IsPositive (i : Int) : bool := 0 <? i.
Definition Int_IsZero (i : Int) : bool := i =? 0.
Definition Int_GTE (i j : Int) : bool := j <=? i.

(** Modelled from the spec: [sdk.Dec] is not under src/.  It is a fixed-point
    decimal, a big integer holding the value scaled by [10^Precision]; this
    makes the conversions between shares and tokens of the spec truncate. *)
Record Dec : Type := mkDec { DecInt : Z }.

Definition Precision : Z := 18.
Definition precisionReuse : Z := 10 ^ Precision.
Definition fivePrecision : Z := precisionReuse / 2.

Definition ZeroDec : Dec := mkDec 0.
Definition OneDec : Dec := mkDec precisionReuse.

(** Modelled from the spec: [NewDecWithPrec(i, prec)], not under src/, is
    [i / 10^prec] (the spec's two-decimal precision for [prec = 2]); [prec]
    must not exceed [Precision]. *)
Definition NewDecWithPrec (i prec : Z) : Res Dec :=
  if (prec <? 0) || (Precision <? prec) then Panic "too much precision"
  else Ok (mkDec (i * 10 ^ (Precision - prec))).

Definition NewDecFromBigIntWithPrec (i prec : Z) : Res Dec :=
  NewDecWithPrec i prec.

Definition Dec_IsZero (d : Dec) : bool := DecInt d =? 0.
Definition Dec_IsNegative (d : Dec) : bool := DecInt d <? 0.
Definition Dec_IsPositive (d : Dec) : bool := 0 <? DecInt d.
Definition Dec_GT (d d2 : Dec) : bool := DecInt d2 <? DecInt d.
Definition Dec_Sub (d d2 : Dec) : Dec := mkDec (DecInt d - DecInt d2).

(** Modelled from the spec: the rounding of [sdk.Dec], not under src/.
    Remove [Precision] digits, rounding half to even; the sign is taken off
    first and put back afterwards. *)
Definition chopPrecisionAndRound (d : Z) : Z :=
  let a := Z.abs d in
  let quo := Z.quot a precisionReuse in
  let rem := Z.rem a precisionReuse in
  let rounded :=
    if rem =? 0 then quo
    else match rem ?= fivePrecision with
         | Lt => quo
         | Gt => quo + 1
         | Eq => if Z.even quo then quo else quo + 1
         end in
  if d <? 0 then - rounded else rounded.

Definition chopPrecisionAndTruncate (d : Z) : Z := Z.quot d precisionReuse.

Definition Dec_MulInt (d : Dec) (i : Int) : Dec := mkDec (DecInt d * i).

(** Modelled from the spec: [d.QuoInt(i)], not under src/, the truncated
    big-integer quotient. *)
Definition Dec_QuoInt (d : Dec) (i : Int) : Res Dec :=
  if i =? 0 then Panic "division by zero"
  else Ok (mkDec (Z.quot (DecInt d) i)).

(** Modelled from the spec: [d.Quo(d2)], not under src/.  The dividend is
    scaled by the precision twice, divided, and chopped with rounding. *)
Definition Dec_Quo (d d2 : Dec) : Res Dec :=
  if DecInt d2 =? 0 then Panic "division by zero"
  else
    let mul := DecInt d * precisionReuse * precisionReuse in
    let quo := Z.quot mul (DecInt d2) in
    Ok (mkDec (chopPrecisionAndRound quo)).

Definition Dec_TruncateInt (d : Dec) : Int :=
  chopPrecisionAndTruncate (DecInt d).

(** Addresses are byte strings; [sdk.ValAddress(a)] and [sdk.AccAddress(a)]
    reinterpret the same bytes. *)
Definition AccAddress : Type := string.
Definition ValAddress : Type := string.

Definition ValAddress_of (a : AccAddress) : ValAddress := a.
Definition AccAddress_of (a : ValAddress) : AccAddress := a.

Definition Equals (a b : string) : bool := String.eqb a b.

(** Modelled from the spec: the validity of a denomination, not under src/.
    Coin denominations match [[a-z][a-z0-9]{2,15}]. *)
Definition isLower (c : ascii) : bool :=
  let n := nat_of_ascii c in (97 <=? n)%nat && (n <=? 122)%nat.
Definition isDigit (c : ascii) : bool :=
  let n := nat_of_ascii c in (48 <=? n)%nat && (n <=? 57)%nat.

Definition validDenom (denom : string) : bool :=
  match denom with
  | EmptyString => false
  | String c rest =>
      isLower c
      && forallb (fun x => isLower x || isDigit x) (list_ascii_of_string rest)
      && (2 <=? String.length rest)%nat && (String.length rest <=? 15)%nat
  end.

Record Coin : Type := mkCoin { Denom : string; Amount : Int }.

(** Modelled from the spec: [sdk.NewCoin], not under src/, pairs an amount
    with a denomination; it panics on an invalid denomination or a negative
    amount. *)
Definition NewCoin (denom : string) (amount : Int) : Res Coin :=
  if negb (validDenom denom) then Panic "invalid denom"
  else if amount <? 0 then Panic "negative coin amount"
  else Ok (mkCoin denom amount).

Definition Coin_IsZero (c : Coin) : bool := Int_IsZero (Amount c).

(** [sdk.Coins]: a slice of coins, kept sorted by denomination. *)
Definition Coins : Type := list Coin.

Definition Empty (coins : Coins) : bool := len coins =? 0.

Definition removeZeroCoins (coins : Coins) : Coins :=
  filter (fun c => negb (Coin_IsZero c)) coins.

(** [NewCoins] drops zero coins (it also sorts and rejects duplicates,
    which is void on the single coin the generators pass). *)
Definition NewCoins (coins : list Coin) : Coins := removeZeroCoins coins.

(** Modelled from the spec: [coins.AmountOf(denom)], not under src/, the
    balance in a given denomination: the amount held in [denom], zero when
    the denomination is absent; panics on an invalid denomination. *)
Fixpoint lookupAmount (coins : Coins) (denom : string) : Int :=
  match coins with
  | [] => ZeroInt
  | c :: rest => if String.eqb (Denom c) denom then Amount c
                 else lookupAmount rest denom
  end.

Definition AmountOf (coins : Coins) (denom : string) : Res Int :=
  if negb (validDenom denom) then Panic "invalid denom"
  else Ok (lookupAmount coins denom).

Definition negative (coins : Coins) : Coins :=
  map (fun c => mkCoin (Denom c) (- Amount c)) coins.

(** Modelled from the spec: [safeAdd], not under src/, the merge of two
    denomination-sorted coin sets, adding the amounts of equal denominations
    and leaving out zero coins. *)
Definition keep (c : Coin) : Coins := if Coin_IsZero c then [] else [c].

Fixpoint safeAdd (coins coinsB : Coins) : Coins :=
  let fix goB (coinsB : Coins) : Coins :=
    match coins, coinsB with
    | [], _ => removeZeroCoins coinsB
    | _, [] => removeZeroCoins coins
    | coinA :: restA, coinB :: restB =>
        match String.compare (Denom coinA) (Denom coinB) with
        | Lt => (keep coinA ++ safeAdd restA coinsB)%list
        | Eq => let res := mkCoin (Denom coinA) (Amount coinA + Amount coinB) in
                (keep res ++ safeAdd restA restB)%list
        | Gt => (keep coinB ++ goB restB)%list
        end
    end in
  goB coinsB.

Definition IsAnyNegative (coins : Coins) : bool :=
  existsb (fun c => Amount c <? 0) coins.

(** Modelled from the spec: [coins.SafeSub(coinsB)], not under src/, the
    spendable balance minus the reserved principal: the difference, and
    whether any amount of it is negative (the spec's deficit). *)
Definition SafeSub (coins coinsB : Coins) : Coins * bool :=
  let diff := safeAdd coins (negative coinsB) in
  (removeZeroCoins diff, IsAnyNegative diff).

(** [ctx sdk.Context]: the generators read the block time of it; the
    keepers below take it as the handle of the state they query. *)
Record Context : Type := mkContext { BlockTime : Z }.

(** [ctx.BlockHeader().Time] is the same instant. *)
Definition BlockHeader_Time (ctx : Context) : Z := BlockTime ctx.

End sdk.

(** ** Accounts as the account keeper hands them out *)

Module exported.

(** Modelled from the spec: the [exported.Account] interface is not under
    src/; it is given by the methods the generators call (coins, spendable
    coins as of a time, account number and sequence). *)
Record Account : Type := mkAccount {
  GetCoins : sdk.Coins;
  SpendableCoins : Z -> sdk.Coins;
  GetAccountNumber : Z;
  GetSequence : Z
}.

End exported.

(** ** x/staking/types: validators, delegations and messages *)

Module types.

Definition ModuleName : string := "staking".

Record Description : Type := NewDescription {
  Moniker : string;
  Identity : string;
  Website : string;
  SecurityContact : string;
  Details : string
}.

Record CommissionRates : Type := NewCommissionRates {
  Rate : sdk.Dec;
  MaxRate : sdk.Dec;
  MaxChangeRate : sdk.Dec
}.

Record Commission : Type := mkCommission {
  Rates : CommissionRates;
  UpdateTime : Z
}.

(** Block times are instants in nanoseconds. *)
Definition Hour : Z := 3600 * 10 ^ 9.

(** Modelled from the spec: [c.ValidateNewRate(newRate, blockTime)], the
    commission-change-validity rule, is not under src/.  A rate change is
    refused less than 24 hours after the last one, for a negative rate, for
    a rate above the maximum, and for a rise above the maximal change. *)
Definition ValidateNewRate (c : Commission) (newRate : sdk.Dec) (blockTime : Z)
  : option error :=
  if blockTime - UpdateTime c <? 24 * Hour then
    Some "commission cannot be changed more than once in 24h"
  else if sdk.Dec_IsNegative newRate then
    Some "commission must be positive"
  else if sdk.Dec_GT newRate (MaxRate (Rates c)) then
    Some "commission cannot be more than the max rate"
  else if sdk.Dec_GT (sdk.Dec_Sub newRate (Rate (Rates c)))
                     (MaxChangeRate (Rates c)) then
    Some "commission cannot be changed more than max change rate"
  else None.

(** Modelled from the spec: [types.Validator] is not under src/; it is given
    by the fields the generators and the conversions below read (operator
    address, bonded tokens, issued shares, commission). *)
Record Validator : Type := mkValidator {
  OperatorAddress : sdk.ValAddress;
  Tokens : sdk.Int;
  DelegatorShares : sdk.Dec;
  Commission_ : Commission
}.

(** The zero value [types.Validator{}]. *)
Definition Validator_zero : Validator :=
  mkValidator "" 0 sdk.ZeroDec
    (mkCommission (NewCommissionRates sdk.ZeroDec sdk.ZeroDec sdk.ZeroDec) 0).

Definition GetOperator (v : Validator) : sdk.ValAddress := OperatorAddress v.

(** Modelled from the spec: [v.InvalidExRate()], not under src/.  A validator
    that issued shares and holds no tokens has no exchange rate. *)
Definition InvalidExRate (v : Validator) : bool :=
  sdk.Int_IsZero (Tokens v) && sdk.Dec_IsPositive (DelegatorShares v).

(** Modelled from the spec: [v.TokensFromShares(shares)], not under src/,
    converts shares to tokens at the validator's exchange rate:
    shares * tokens / delegator shares. *)
Definition TokensFromShares (v : Validator) (shares : sdk.Dec) : Res sdk.Dec :=
  sdk.Dec_Quo (sdk.Dec_MulInt shares (Tokens v)) (DelegatorShares v).

(** Modelled from the spec: [v.SharesFromTokens(amt)], not under src/,
    converts tokens to shares at the validator's exchange rate:
    delegator shares * amt / tokens, an error for a validator without
    tokens. *)
Definition SharesFromTokens (v : Validator) (amt : sdk.Int)
  : Res (sdk.Dec * option error) :=
  if sdk.Int_IsZero (Tokens v) then Ok (sdk.ZeroDec, Some "insufficient shares")
  else match sdk.Dec_QuoInt (sdk.Dec_MulInt (DelegatorShares v) amt) (Tokens v) with
       | Ok d => Ok (d, None)
       | Panic s => Panic s
       end.

Record Delegation : Type := mkDelegation {
  DelegatorAddress : sdk.AccAddress;
  ValidatorAddress : sdk.ValAddress;
  Shares : sdk.Dec
}.

Definition GetDelegatorAddr (d : Delegation) : sdk.AccAddress := DelegatorAddress d.
Definition GetShares (d : Delegation) : sdk.Dec := Shares d.

Record Params : Type := mkParams { BondDenom : string }.

(** Modelled from the spec: the five staking messages and their
    constructors are not under src/; a message holds the parameters the
    generator passes. *)
Record MsgCreateValidator : Type := mkMsgCreateValidator {
  cv_Description : Description;
  cv_Commission : CommissionRates;
  cv_MinSelfDelegation : sdk.Int;
  cv_DelegatorAddress : sdk.AccAddress;
  cv_ValidatorAddress : sdk.ValAddress;
  cv_PubKey : option string;
  cv_Value : sdk.Coin
}.

Record MsgEditValidator : Type := mkMsgEditValidator {
  ev_Description : Description;
  ev_ValidatorAddress : sdk.ValAddress;
  ev_CommissionRate : option sdk.Dec;
  ev_MinSelfDelegation : option sdk.Int
}.

Record MsgDelegate : Type := mkMsgDelegate {
  d_DelegatorAddress : sdk.AccAddress;
  d_ValidatorAddress : sdk.ValAddress;
  d_Amount : sdk.Coin
}.

Record MsgUndelegate : Type := mkMsgUndelegate {
  u_DelegatorAddress : sdk.AccAddress;
  u_ValidatorAddress : sdk.ValAddress;
  u_Amount : sdk.Coin
}.

Record MsgBeginRedelegate : Type := mkMsgBeginRedelegate {
  r_DelegatorAddress : sdk.AccAddress;
  r_ValidatorSrcAddress : sdk.ValAddress;
  r_ValidatorDstAddress : sdk.ValAddress;
  r_Amount : sdk.Coin
}.

(** [sdk.Msg], as implemented by the staking messages. *)
Inductive Msg : Type :=
| CreateValidator (m : MsgCreateValidator)
| EditValidator (m : MsgEditValidator)
| Delegate (m : MsgDelegate)
| Undelegate (m : MsgUndelegate)
| BeginRedelegate (m : MsgBeginRedelegate).

Definition Route (m : Msg) : string := ModuleName.

Definition Type_ (m : Msg) : string :=
  match m with
  | CreateValidator _ => "create_validator"
  | EditValidator _ => "edit_validator"
  | Delegate _ => "delegate"
  | Undelegate _ => "begin_unbonding"
  | BeginRedelegate _ => "begin_redelegate"
  end.

Definition NewMsgCreateValidator (valAddr : sdk.ValAddress) (pubKey : option string)
    (selfDelegation : sdk.Coin) (description : Description)
    (commission : CommissionRates) (minSelfDelegation : sdk.Int) : Msg :=
  CreateValidator
    (mkMsgCreateValidator description commission minSelfDelegation
       (sdk.AccAddress_of valAddr) valAddr pubKey selfDelegation).

Definition NewMsgEditValidator (valAddr : sdk.ValAddress) (description : Description)
    (newRate : option sdk.Dec) (newMinSelfDelegation : option sdk.Int) : Msg :=
  EditValidator (mkMsgEditValidator description valAddr newRate newMinSelfDelegation).

Definition NewMsgDelegate (delAddr : sdk.AccAddress) (valAddr : sdk.ValAddress)
    (amount : sdk.Coin) : Msg :=
  Delegate (mkMsgDelegate delAddr valAddr amount).

Definition NewMsgUndelegate (delAddr : sdk.AccAddress) (valAddr : sdk.ValAddress)
    (amount : sdk.Coin) : Msg :=
  Undelegate (mkMsgUndelegate delAddr valAddr amount).

Definition NewMsgBeginRedelegate (delAddr : sdk.AccAddress)
    (valSrcAddr valDstAddr : sdk.ValAddress) (amount : sdk.Coin) : Msg :=
  BeginRedelegate (mkMsgBeginRedelegate delAddr valSrcAddr valDstAddr amount).

(** Modelled from the spec: the [types.AccountKeeper] interface is not under
    src/; [GetAccount] answers nil for an address without account. *)
Record AccountKeeper : Type := mkAccountKeeper {
  GetAccount : sdk.Context -> sdk.AccAddress -> option exported.Account
}.

End types.

(** ** x/staking/keeper: the queries of the staking store *)

Module keeper.

(** Modelled from the spec: the staking keeper is not under src/; it is given
    by the queries the generators make of it. *)
Record Keeper : Type := mkKeeper {
  GetValidator : sdk.Context -> sdk.ValAddress -> types.Validator * bool;
  GetAllValidators : sdk.Context -> list types.Validator;
  GetParams : sdk.Context -> types.Params;
  BondDenom : sdk.Context -> string;
  GetValidatorDelegations : sdk.Context -> sdk.ValAddress -> list types.Delegation;
  HasMaxUnbondingDelegationEntries :
    sdk.Context -> sdk.AccAddress -> sdk.ValAddress -> bool;
  HasReceivingRedelegation :
    sdk.Context -> sdk.AccAddress -> sdk.ValAddress -> bool;
  HasMaxRedelegationEntries :
    sdk.Context -> sdk.AccAddress -> sdk.ValAddress -> sdk.ValAddress -> bool
}.

(** Modelled from the spec: [keeper.RandomValidator(r, k, ctx)], not under
    src/, samples a random existing validator: a validator drawn among all
    of them, and [false] when there is none. *)
Definition RandomValidator (k : Keeper) (ctx : sdk.Context)
  : M (types.Validator * bool) :=
  let vals := GetAllValidators k ctx in
  if len vals =? 0 then ret (types.Validator_zero, false)
  else
    i <- Intn (len vals) ;;
    val <- lift (index vals i) ;;
    ret (val, true).

End keeper.

(** ** x/simulation: accounts, operation messages and random helpers *)

Module simulation.

(** Modelled from the spec: [simulation.Account] is not under src/.  A
    simulation account: key pair and address.  The keys are interface
    values and may be nil. *)
Record Account : Type := mkAccount {
  PrivKey : option string;
  PubKey : option string;
  Address : sdk.AccAddress
}.

(** The zero value [simulation.Account{}]. *)
Definition Account_zero : Account := mkAccount None None "".

(** Modelled from the spec: [simulation.OperationMsg] and its constructors
    [NoOpMsg] and [NewOperationMsg] are not under src/.  The message bytes
    are kept as the message itself, absent for a no-operation. *)
Record OperationMsg : Type := mkOperationMsg {
  Route : string;
  Name : string;
  Comment : string;
  OK : bool;
  Msg : option types.Msg
}.

(** A scheduling hint; the generators always return none. *)
Record FutureOperation : Type := mkFutureOperation {
  BlockHeight : Z
}.

(** [NoOpMsg(route)]: the operation reported when nothing was done. *)
Definition NoOpMsg (route : string) : OperationMsg :=
  mkOperationMsg route "no-operation" "" false None.

(** [NewOperationMsg(msg, ok, comment)]: the operation reported for [msg]. *)
Definition NewOperationMsg (msg : types.Msg) (ok : bool) (comment : string)
  : OperationMsg :=
  mkOperationMsg (types.Route msg) (types.Type_ msg) comment ok (Some msg).

(** Modelled from the spec: [RandomAcc(r, accs)], not under src/, uniform
    account sampling: an account of the slice and its position. *)
Definition RandomAcc (accs : list Account) : M (Account * Z) :=
  idx <- Intn (len accs) ;;
  acc <- lift (index accs idx) ;;
  ret (acc, idx).

(** Modelled from the spec: [RandPositiveInt(r, max)], not under src/, a
    random positive integer bounded above: an error when [max < 1] (the
    malformed bound); otherwise one plus a draw below [max - 1], a positive
    value not above [max]. *)
Definition RandPositiveInt (max : sdk.Int) : M (sdk.Int * option error) :=
  if negb (sdk.Int_GTE max sdk.OneInt) then ret (0, Some "max too small")
  else
    let max := max - sdk.OneInt in
    x <- bigRand max ;;
    ret (x + sdk.OneInt, None).

(** Modelled from the spec: [RandomDecAmount(r, max)], not under src/, a
    random decimal bounded above: one time in ten zero, one time in ten the
    bound itself, otherwise a draw below the bound. *)
Definition RandomDecAmount (max : sdk.Dec) : M sdk.Dec :=
  c <- Intn 10 ;;
  randInt <- (if c =? 0 then ret 0
              else if c =? 1 then ret (sdk.DecInt max)
              else bigRand (sdk.DecInt max)) ;;
  lift (sdk.NewDecFromBigIntWithPrec randInt sdk.Precision).

(** Modelled from the spec: [RandIntBetween(r, min, max)], not under src/, a
    random integer in range, taken as [r.Intn(max - min) + min].  Whether
    [max] itself can be drawn is not settled by the sources at hand; no
    property below depends on it. *)
Definition RandIntBetween (min max : Z) : M Z :=
  x <- Intn (max - min) ;;
  ret (x + min).

Definition letters : string :=
  "abcdefghijklmnopqrstuvwxyzABCDEFGHIJKLMNOPQRSTUVWXYZ0123456789".

(** Modelled from the spec: [RandStringOfLength(r, n)], not under src/, a
    random string of fixed length: [n] characters drawn among [letters], one
    draw each. *)
Fixpoint RandStringOfLength (n : nat) : M string :=
  match n with
  | O => ret ""
  | S n' =>
      i <- Intn 62 ;;
      rest <- RandStringOfLength n' ;;
      ret (String (match String.get (Z.to_nat i) letters with
                   | Some c => c
                   | None => "a"%char
                   end) rest)
  end.

(** Modelled from the spec: [RandomFees(r, ctx, spendableCoins)], not under
    src/, a random fee bounded by a coin set: no fee for an empty coin set
    or a zero coin; otherwise a positive amount of one of the coins. *)
Definition RandomFees (ctx : sdk.Context) (spendableCoins : sdk.Coins)
  : M (sdk.Coins * option error) :=
  if sdk.Empty spendableCoins then ret ([], None)
  else
    denomIndex <- Intn (len spendableCoins) ;;
    randCoin <- lift (index spendableCoins denomIndex) ;;
    if sdk.Int_IsZero (sdk.Amount randCoin) then ret ([], None)
    else
      '(amt, err) <- RandPositiveInt (sdk.Amount randCoin) ;;
      match err with
      | Some e => ret ([], Some e)
      | None =>
          coin <- lift (sdk.NewCoin (sdk.Denom randCoin) amt) ;;
          ret (sdk.NewCoins [coin], None)
      end.

(** Modelled from the spec: [FindAccount(accs, address)], not under src/, the
    reverse lookup of a key pair by address: the first account at that
    address. *)
Fixpoint FindAccount (accs : list Account) (address : sdk.AccAddress)
  : Account * bool :=
  match accs with
  | [] => (Account_zero, false)
  | acc :: rest =>
      if sdk.Equals (Address acc) address then (acc, true)
      else FindAccount rest address
  end.

End simulation.

(** ** The transaction pipeline *)

Module helpers.

(** Modelled from the spec: [helpers.GenTx] is not under src/.  The
    transaction it assembles from messages, fees, chain identifier, account
    number, sequence and signing key; the signature is left out. *)
Record Tx : Type := GenTx {
  Msgs : list types.Msg;
  Fee : sdk.Coins;
  ChainID : string;
  AccNums : list Z;
  Seqs : list Z;
  Priv : option string
}.

End helpers.

Module baseapp.

Record Result : Type := mkResult { Code : Z; Log : string }.

Definition IsOK (res : Result) : bool := Code res =? 0.

(** Modelled from the spec: [app.Deliver(tx)] is not under src/.  It runs
    the transaction against the application state and answers pass or fail
    with a log. *)
Record BaseApp : Type := mkBaseApp {
  Deliver : helpers.Tx -> Result
}.

End baseapp.

(** ** The operation generators *)

(** What a [simulation.Operation] returns:
    [(simulation.OperationMsg, []simulation.FutureOperation, error)]. *)
Definition OpReturn : Type :=
  (simulation.OperationMsg * list simulation.FutureOperation * option error)%type.

(** The loop [for _, simAcc := range accs] of the undelegate and redelegate
    generators: the first account at [delAddr], the zero account when the
    loop finds none. *)
Fixpoint rangeAccs (accs : list simulation.Account) (delAddr : sdk.AccAddress)
  : simulation.Account :=
  match accs with
  | [] => simulation.Account_zero
  | simAcc :: rest =>
      if sdk.Equals (simulation.Address simAcc) delAddr then simAcc
      else rangeAccs rest delAddr
  end.

(** The description of five random strings of length 10. *)
Definition randomDescription : M types.Description :=
  s1 <- simulation.RandStringOfLength 10 ;;
  s2 <- simulation.RandStringOfLength 10 ;;
  s3 <- simulation.RandStringOfLength 10 ;;
  s4 <- simulation.RandStringOfLength 10 ;;
  s5 <- simulation.RandStringOfLength 10 ;;
  ret (types.NewDescription s1 s2 s3 s4 s5).

(** Lines 65-70: the commission rates of a new validator. *)
Definition randomCommission : M types.CommissionRates :=
  i <- simulation.RandIntBetween 0 100 ;;
  maxCommission <- lift (sdk.NewDecWithPrec i 2) ;;
  rate <- simulation.RandomDecAmount maxCommission ;;
  maxChange <- simulation.RandomDecAmount maxCommission ;;
  ret (types.NewCommissionRates rate maxCommission maxChange).

(** SimulateMsgCreateValidator generates a MsgCreateValidator with random
    values. *)
Definition SimulateMsgCreateValidator (ak : types.AccountKeeper) (k : keeper.Keeper)
    (app : baseapp.BaseApp) (ctx : sdk.Context) (accs : list simulation.Account)
    (chainID : string) : M OpReturn :=
  '(simAccount, _) <- simulation.RandomAcc accs ;;
  let address := sdk.ValAddress_of (simulation.Address simAccount) in
  (* ensure the validator doesn't exist already *)
  let '(_, found) := keeper.GetValidator k ctx address in
  if found then ret (simulation.NoOpMsg types.ModuleName, [], None) else
  let denom := types.BondDenom (keeper.GetParams k ctx) in
  acc0 <- lift (deref (types.GetAccount ak ctx (simulation.Address simAccount))) ;;
  amount <- lift (sdk.AmountOf (exported.GetCoins acc0) denom) ;;
  if negb (sdk.Int_IsPositive amount) then
    ret (simulation.NoOpMsg types.ModuleName, [], None) else
  '(amount, err) <- simulation.RandPositiveInt amount ;;
  match err with
  | Some e => ret (simulation.NoOpMsg types.ModuleName, [], Some e)
  | None =>
  selfDelegation <- lift (sdk.NewCoin denom amount) ;;
  account <- lift (deref (types.GetAccount ak ctx (simulation.Address simAccount))) ;;
  let coins := exported.SpendableCoins account (sdk.BlockTime ctx) in
  let '(coins, hasNeg) := sdk.SafeSub coins [selfDelegation] in
  '(fees, err) <- (if negb hasNeg then simulation.RandomFees ctx coins
                   else ret ([], None)) ;;
  match err with
  | Some e => ret (simulation.NoOpMsg types.ModuleName, [], Some e)
  | None =>
  description <- randomDescription ;;
  commission <- randomCommission ;;
  let msg := types.NewMsgCreateValidator address (simulation.PubKey simAccount)
               selfDelegation description commission sdk.OneInt in
  let tx := helpers.GenTx [msg] fees chainID
              [exported.GetAccountNumber account] [exported.GetSequence account]
              (simulation.PrivKey simAccount) in
  let res := baseapp.Deliver app tx in
  if negb (baseapp.IsOK res) then
    ret (simulation.NoOpMsg types.ModuleName, [], Some (baseapp.Log res))
  else ret (simulation.NewOperationMsg msg true "", [], None)
  end
  end.

(** SimulateMsgEditValidator generates a MsgEditValidator with random
    values. *)
Definition SimulateMsgEditValidator (ak : types.AccountKeeper) (k : keeper.Keeper)
    (app : baseapp.BaseApp) (ctx : sdk.Context) (accs : list simulation.Account)
    (chainID : string) : M OpReturn :=
  if len (keeper.GetAllValidators k ctx) =? 0 then
    ret (simulation.NoOpMsg types.ModuleName, [], None) else
  '(val, ok) <- keeper.RandomValidator k ctx ;;
  if negb ok then ret (simulation.NoOpMsg types.ModuleName, [], None) else
  let address := types.GetOperator val in
  newCommissionRate <-
    simulation.RandomDecAmount (types.MaxRate (types.Rates (types.Commission_ val))) ;;
  match types.ValidateNewRate (types.Commission_ val) newCommissionRate
          (sdk.BlockHeader_Time ctx) with
  | Some _ =>
      (* skip as the commission is invalid *)
      ret (simulation.NoOpMsg types.ModuleName, [], None)
  | None =>
  let '(simAccount, found) :=
    simulation.FindAccount accs (sdk.AccAddress_of (types.GetOperator val)) in
  if negb found then
    ret (simulation.NoOpMsg types.ModuleName, [],
         Some ("validator " ++ types.GetOperator val ++ " not found")%string) else
  account <- lift (deref (types.GetAccount ak ctx (simulation.Address simAccount))) ;;
  '(fees, err) <- simulation.RandomFees ctx
                    (exported.SpendableCoins account (sdk.BlockTime ctx)) ;;
  match err with
  | Some e => ret (simulation.NoOpMsg types.ModuleName, [], Some e)
  | None =>
  description <- randomDescription ;;
  let msg := types.NewMsgEditValidator address description
               (Some newCommissionRate) None in
  let tx := helpers.GenTx [msg] fees chainID
              [exported.GetAccountNumber account] [exported.GetSequence account]
              (simulation.PrivKey simAccount) in
  let res := baseapp.Deliver app tx in
  if negb (baseapp.IsOK res) then
    ret (simulation.NoOpMsg types.ModuleName, [], Some (baseapp.Log res))
  else ret (simulation.NewOperationMsg msg true "", [], None)
  end
  end.

(** SimulateMsgDelegate generates a MsgDelegate with random values. *)
Definition SimulateMsgDelegate (ak : types.AccountKeeper) (k : keeper.Keeper)
    (app : baseapp.BaseApp) (ctx : sdk.Context) (accs : list simulation.Account)
    (chainID : string) : M OpReturn :=
  let denom := types.BondDenom (keeper.GetParams k ctx) in
  if len (keeper.GetAllValidators k ctx) =? 0 then
    ret (simulation.NoOpMsg types.ModuleName, [], None) else
  '(simAccount, _) <- simulation.RandomAcc accs ;;
  '(val, ok) <- keeper.RandomValidator k ctx ;;
  if negb ok then ret (simulation.NoOpMsg types.ModuleName, [], None) else
  if types.InvalidExRate val then
    ret (simulation.NoOpMsg types.ModuleName, [], None) else
  acc0 <- lift (deref (types.GetAccount ak ctx (simulation.Address simAccount))) ;;
  amount <- lift (sdk.AmountOf (exported.GetCoins acc0) denom) ;;
  if negb (sdk.Int_IsPositive amount) then
    ret (simulation.NoOpMsg types.ModuleName, [], None) else
  '(amount, err) <- simulation.RandPositiveInt amount ;;
  match err with
  | Some e => ret (simulation.NoOpMsg types.ModuleName, [], Some e)
  | None =>
  bondAmt <- lift (sdk.NewCoin denom amount) ;;
  account <- lift (deref (types.GetAccount ak ctx (simulation.Address simAccount))) ;;
  let coins := exported.SpendableCoins account (sdk.BlockTime ctx) in
  let '(coins, hasNeg) := sdk.SafeSub coins [bondAmt] in
  '(fees, err) <- (if negb hasNeg then simulation.RandomFees ctx coins
                   else ret ([], None)) ;;
  match err with
  | Some e => ret (simulation.NoOpMsg types.ModuleName, [], Some e)
  | None =>
  let msg := types.NewMsgDelegate (simulation.Address simAccount)
               (types.GetOperator val) bondAmt in
  let tx := helpers.GenTx [msg] fees chainID
              [exported.GetAccountNumber account] [exported.GetSequence account]
              (simulation.PrivKey simAccount) in
  let res := baseapp.Deliver app tx in
  if negb (baseapp.IsOK res) then
    ret (simulation.NoOpMsg types.ModuleName, [], Some (baseapp.Log res))
  else ret (simulation.NewOperationMsg msg true "", [], None)
  end
  end.

(** SimulateMsgUndelegate generates a MsgUndelegate with random values. *)
Definition SimulateMsgUndelegate (ak : types.AccountKeeper) (k : keeper.Keeper)
    (app : baseapp.BaseApp) (ctx : sdk.Context) (accs : list simulation.Account)
    (chainID : string) : M OpReturn :=
  (* get random validator *)
  '(validator, ok) <- keeper.RandomValidator k ctx ;;
  if negb ok then ret (simulation.NoOpMsg types.ModuleName, [], None) else
  let valAddr := types.GetOperator validator in
  let delegations :=
    keeper.GetValidatorDelegations k ctx (types.OperatorAddress validator) in
  (* get random delegator from validator *)
  i <- Intn (len delegations) ;;
  delegation <- lift (index delegations i) ;;
  let delAddr := types.GetDelegatorAddr delegation in
  if keeper.HasMaxUnbondingDelegationEntries k ctx delAddr valAddr then
    ret (simulation.NoOpMsg types.ModuleName, [], None) else
  tokens <- lift (types.TokensFromShares validator (types.GetShares delegation)) ;;
  let totalBond := sdk.Dec_TruncateInt tokens in
  if negb (sdk.Int_IsPositive totalBond) then
    ret (simulation.NoOpMsg types.ModuleName, [], None) else
  '(unbondAmt, err) <- simulation.RandPositiveInt totalBond ;;
  match err with
  | Some e => ret (simulation.NoOpMsg types.ModuleName, [], Some e)
  | None =>
  if sdk.Int_IsZero unbondAmt then
    ret (simulation.NoOpMsg types.ModuleName, [], None) else
  coin <- lift (sdk.NewCoin (keeper.BondDenom k ctx) unbondAmt) ;;
  let msg := types.NewMsgUndelegate delAddr valAddr coin in
  (* need to retrieve the simulation account associated with delegation to
     retrieve PrivKey *)
  let simAccount := rangeAccs accs delAddr in
  (* if simaccount.PrivKey == nil, delegation address does not exist in accs.
     Return error *)
  match simulation.PrivKey simAccount with
  | None =>
      ret (simulation.NoOpMsg types.ModuleName, [],
           Some ("delegation addr: " ++ delAddr
                 ++ " does not exist in simulation accounts")%string)
  | Some _ =>
  account <- lift (deref (types.GetAccount ak ctx delAddr)) ;;
  '(fees, err) <- simulation.RandomFees ctx
                    (exported.SpendableCoins account (sdk.BlockTime ctx)) ;;
  match err with
  | Some e => ret (simulation.NoOpMsg types.ModuleName, [], Some e)
  | None =>
  let tx := helpers.GenTx [msg] fees chainID
              [exported.GetAccountNumber account] [exported.GetSequence account]
              (simulation.PrivKey simAccount) in
  let res := baseapp.Deliver app tx in
  if negb (baseapp.IsOK res) then
    ret (simulation.NoOpMsg types.ModuleName, [], Some (baseapp.Log res))
  else ret (simulation.NewOperationMsg msg true "", [], None)
  end
  end
  end.

(** SimulateMsgBeginRedelegate generates a MsgBeginRedelegate with random
    values. *)
Definition SimulateMsgBeginRedelegate (ak : types.AccountKeeper) (k : keeper.Keeper)
    (app : baseapp.BaseApp) (ctx : sdk.Context) (accs : list simulation.Account)
    (chainID : string) : M OpReturn :=
  (* get random source validator *)
  '(srcVal, ok) <- keeper.RandomValidator k ctx ;;
  if negb ok then ret (simulation.NoOpMsg types.ModuleName, [], None) else
  let srcAddr := types.GetOperator srcVal in
  let delegations := keeper.GetValidatorDelegations k ctx srcAddr in
  (* get random delegator from src validator *)
  i <- Intn (len delegations) ;;
  delegation <- lift (index delegations i) ;;
  let delAddr := types.GetDelegatorAddr delegation in
  if keeper.HasReceivingRedelegation k ctx delAddr srcAddr then
    ret (simulation.NoOpMsg types.ModuleName, [], None) (* skip *) else
  (* get random destination validator *)
  '(destVal, ok) <- keeper.RandomValidator k ctx ;;
  if negb ok then ret (simulation.NoOpMsg types.ModuleName, [], None) else
  let destAddr := types.GetOperator destVal in
  if sdk.Equals srcAddr destAddr
     || types.InvalidExRate destVal
     || keeper.HasMaxRedelegationEntries k ctx delAddr srcAddr destAddr then
    ret (simulation.NoOpMsg types.ModuleName, [], None) else
  tokens <- lift (types.TokensFromShares srcVal (types.GetShares delegation)) ;;
  let totalBond := sdk.Dec_TruncateInt tokens in
  if negb (sdk.Int_IsPositive totalBond) then
    ret (simulation.NoOpMsg types.ModuleName, [], None) else
  '(redAmt, err) <- simulation.RandPositiveInt totalBond ;;
  match err with
  | Some e => ret (simulation.NoOpMsg types.ModuleName, [], Some e)
  | None =>
  if sdk.Int_IsZero redAmt then
    ret (simulation.NoOpMsg types.ModuleName, [], None) else
  (* check if the shares truncate to zero *)
  '(shares, err) <- lift (types.SharesFromTokens srcVal redAmt) ;;
  match err with
  | Some e => ret (simulation.NoOpMsg types.ModuleName, [], Some e)
  | None =>
  back <- lift (types.TokensFromShares srcVal shares) ;;
  if sdk.Int_IsZero (sdk.Dec_TruncateInt back) then
    ret (simulation.NoOpMsg types.ModuleName, [], None) (* skip *) else
  (* need to retrieve the simulation account associated with delegation to
     retrieve PrivKey *)
  let simAccount := rangeAccs accs delAddr in
  (* if simaccount.PrivKey == nil, delegation address does not exist in accs.
     Return error *)
  match simulation.PrivKey simAccount with
  | None =>
      ret (simulation.NoOpMsg types.ModuleName, [],
           Some ("delegation addr: " ++ delAddr
                 ++ " does not exist in simulation accounts")%string)
  | Some _ =>
  (* get tx fees *)
  account <- lift (deref (types.GetAccount ak ctx delAddr)) ;;
  '(fees, err) <- simulation.RandomFees ctx
                    (exported.SpendableCoins account (sdk.BlockTime ctx)) ;;
  match err with
  | Some e => ret (simulation.NoOpMsg types.ModuleName, [], Some e)
  | None =>
  coin <- lift (sdk.NewCoin (keeper.BondDenom k ctx) redAmt) ;;
  let msg := types.NewMsgBeginRedelegate delAddr srcAddr destAddr coin in
  let tx := helpers.GenTx [msg] fees chainID
              [exported.GetAccountNumber account] [exported.GetSequence account]
              (simulation.PrivKey simAccount) in
  let res := baseapp.Deliver app tx in
  if negb (baseapp.IsOK res) then
    ret (simulation.NoOpMsg types.ModuleName, [], Some (baseapp.Log res))
  else ret (simulation.NewOperationMsg msg true "", [], None)
  end
  end
  end
  end.

(** ** Classification of the outcomes *)

(** NoOp: the no-operation message and a nil error. *)
Definition isNoOp (o : OpReturn) : Prop :=
  o = (simulation.NoOpMsg types.ModuleName, [], None).

(** Error: the no-operation message and a non-nil error. *)
Definition isError (o : OpReturn) : Prop :=
  exists e, o = (simulation.NoOpMsg types.ModuleName, [], Some e).

(** Success: the operation message of [msg], marked ok, and a nil error. *)
Definition isSuccess (o : OpReturn) (msg : types.Msg) : Prop :=
  o = (simulation.NewOperationMsg msg true "", [], None).

(** A run of a generator from the random source [r] that returned. *)
Definition returns {A} (m : M A) (r : rand.Rand) (a : A) : Prop :=
  exists r', m r = Ok (a, r').

(** The outcome every generator ends with once the transaction [tx] of the
    message [msg] is built: the log of a delivery that failed as error,
    otherwise the operation message of [msg]. *)
Definition delivered (app : baseapp.BaseApp) (tx : helpers.Tx) (msg : types.Msg)
  : OpReturn :=
  let res := baseapp.Deliver app tx in
  if negb (baseapp.IsOK res) then
    (simulation.NoOpMsg types.ModuleName, [], Some (baseapp.Log res))
  else (simulation.NewOperationMsg msg true "", [], None).

(** ** A chain state in memory

    The keepers of a test chain: the staking store and the bank of accounts
    as plain lists, and the queries of [keeper.Keeper] and
    [types.AccountKeeper] answered from them. *)

Module memstore.

Record State : Type := mkState {
  validators : list types.Validator;
  delegations : list types.Delegation;
  bondDenom : string;
  accounts : list (sdk.AccAddress * exported.Account);
  maxUnbonding : list (sdk.AccAddress * sdk.ValAddress);
  receiving : list (sdk.AccAddress * sdk.ValAddress);
  maxRedelegation : list (sdk.AccAddress * sdk.ValAddress * sdk.ValAddress)
}.

Fixpoint findValidator (vals : list types.Validator) (addr : sdk.ValAddress)
  : types.Validator * bool :=
  match vals with
  | [] => (types.Validator_zero, false)
  | v :: rest => if sdk.Equals (types.OperatorAddress v) addr then (v, true)
                 else findValidator rest addr
  end.

Fixpoint findAccount (accts : list (sdk.AccAddress * exported.Account))
    (addr : sdk.AccAddress) : option exported.Account :=
  match accts with
  | [] => None
  | (a, acc) :: rest => if sdk.Equals a addr then Some acc else findAccount rest addr
  end.

Definition Keeper (s : State) : keeper.Keeper :=
  keeper.mkKeeper
    (fun _ addr => findValidator (validators s) addr)
    (fun _ => validators s)
    (fun _ => types.mkParams (bondDenom s))
    (fun _ => bondDenom s)
    (fun _ valAddr =>
       filter (fun d => sdk.Equals (types.ValidatorAddress d) valAddr) (delegations s))
    (fun _ delAddr valAddr =>
       existsb (fun '(d, v) => sdk.Equals d delAddr && sdk.Equals v valAddr)
               (maxUnbonding s))
    (fun _ delAddr valAddr =>
       existsb (fun '(d, v) => sdk.Equals d delAddr && sdk.Equals v valAddr)
               (receiving s))
    (fun _ delAddr src dst =>
       existsb (fun '(d, v, w) =>
                  sdk.Equals d delAddr && sdk.Equals v src && sdk.Equals w dst)
               (maxRedelegation s)).

Definition AccountKeeper (s : State) : types.AccountKeeper :=
  types.mkAccountKeeper (fun _ addr => findAccount (accounts s) addr).

(** An account whose coins are all spendable. *)
Definition account (coins : sdk.Coins) (number sequence : Z) : exported.Account :=
  exported.mkAccount coins (fun _ => coins) number sequence.

(** An application that accepts every transaction, and one that refuses
    every transaction. *)
Definition accepting : baseapp.BaseApp :=
  baseapp.mkBaseApp (fun _ => baseapp.mkResult 0 "").

Definition refusing : baseapp.BaseApp :=
  baseapp.mkBaseApp (fun _ => baseapp.mkResult 1 "tx failed").

End memstore.

(** ** Concrete chains used by the examples below *)

Module scenario.

Definition unit_ : Z := sdk.precisionReuse.

(** Commission of 10%, at most 50%, changing by at most 1% a day; last
    changed at time 0. *)
Definition commission : types.Commission :=
  types.mkCommission
    (types.NewCommissionRates (sdk.mkDec (unit_ / 10)) (sdk.mkDec (unit_ / 2))
       (sdk.mkDec (unit_ / 100)))
    0.

(** A validator that was slashed: 6 tokens back 7 shares. *)
Definition val1 : types.Validator :=
  types.mkValidator "val1" 6 (sdk.mkDec (7 * unit_)) commission.

(** A validator at the rate 1:1. *)
Definition val2 : types.Validator :=
  types.mkValidator "val2" 100 (sdk.mkDec (100 * unit_)) commission.

Definition alice : simulation.Account :=
  simulation.mkAccount (Some "alice-priv") (Some "alice-pub") "alice".

Definition aliceOnVal1 : types.Delegation :=
  types.mkDelegation "alice" "val1" (sdk.mkDec (7 * unit_)).

Definition carolOnVal1 : types.Delegation :=
  types.mkDelegation "carol" "val1" (sdk.mkDec (7 * unit_)).

(** A chain without validators; alice holds 50 stake. *)
Definition empty : memstore.State :=
  memstore.mkState [] [] "stake"
    [("alice", memstore.account [sdk.mkCoin "stake" 50] 1 0)] [] [] [].

(** Both validators; alice delegates all the shares of [val1] and holds 50
    stake. *)
Definition chain : memstore.State :=
  memstore.mkState [val1; val2] [aliceOnVal1] "stake"
    [("alice", memstore.account [sdk.mkCoin "stake" 50] 1 0)] [] [] [].

(** [val1] alone, with alice's delegation. *)
Definition single : memstore.State :=
  memstore.mkState [val1] [aliceOnVal1] "stake"
    [("alice", memstore.account [sdk.mkCoin "stake" 50] 1 0)] [] [] [].

(** [val2] alone, without any delegation left. *)
Definition undelegated : memstore.State :=
  memstore.mkState [val2] [] "stake"
    [("alice", memstore.account [sdk.mkCoin "stake" 50] 1 0)] [] [] [].

(** The delegator carol is not a simulation account, and is at the cap of
    unbonding entries and has a redelegation coming into [val1]. *)
Definition capped : memstore.State :=
  memstore.mkState [val1; val2] [carolOnVal1] "stake" []
    [("carol", "val1")] [("carol", "val1")] [].

(** The delegator carol is not a simulation account; nothing else stands in
    the way. *)
Definition stranger : memstore.State :=
  memstore.mkState [val2; val1]
    [types.mkDelegation "carol" "val2" (sdk.mkDec (100 * unit_))] "stake" [] [] [] [].

(** Alice's spendable coins are vesting: she holds 50 stake and can spend 3. *)
Definition vesting : memstore.State :=
  memstore.mkState [val2] [] "stake"
    [("alice", exported.mkAccount [sdk.mkCoin "stake" 50]
                 (fun _ => [sdk.mkCoin "stake" 3]) 1 0)] [] [] [].

(** Block time: 100 hours, and 1 hour, after the last commission change. *)
Definition ctx : sdk.Context := sdk.mkContext (100 * types.Hour).
Definition early : sdk.Context := sdk.mkContext types.Hour.

End scenario.

(** ** Further concrete cases *)

Module cases.

(** The operator of [scenario.val1] as a simulation account. *)
Definition operator1 : simulation.Account :=
  simulation.mkAccount (Some "val1-priv") (Some "val1-pub") "val1".

Definition withOperator : list simulation.Account :=
  operator1 :: scenario.alice :: nil.

(** Both validators of [scenario.chain]; alice and the operator of
    [scenario.val1] hold accounts. *)
Definition operated : memstore.State :=
  memstore.mkState (scenario.val1 :: scenario.val2 :: nil)
    (scenario.aliceOnVal1 :: nil) "stake"
    (("alice", memstore.account (sdk.mkCoin "stake" 50 :: nil) 1 0)
       :: ("val1", memstore.account (sdk.mkCoin "stake" 20 :: nil) 2 0) :: nil)
    nil nil nil.

(** A validator slashed to nothing: shares are issued, no token is left. *)
Definition drained : types.Validator :=
  types.mkValidator "val3" 0 (sdk.mkDec (5 * scenario.unit_)) scenario.commission.

Definition withDrained : memstore.State :=
  memstore.mkState (drained :: nil) nil "stake"
    (("alice", memstore.account (sdk.mkCoin "stake" 50 :: nil) 1 0) :: nil)
    nil nil nil.

(** Alice twice in the list of simulation accounts: first without a key. *)
Definition aliceNoKey : simulation.Account :=
  simulation.mkAccount None (Some "alice-pub") "alice".

Definition keyless : list simulation.Account :=
  aliceNoKey :: scenario.alice :: nil.

(** An account keeper that knows no account. *)
Definition noAccounts : types.AccountKeeper :=
  types.mkAccountKeeper (fun _ _ => None).

End cases.

(** * Properties *)

(** ** Reasoning about runs *)

Lemma bind_Ok {A B} (m : M A) (k : A -> M B) r b r2 :
  bind m k r = Ok (b, r2) ->
  exists a r1, m r = Ok (a, r1) /\ k a r1 = Ok (b, r2).
Proof.
  unfold bind. destruct (m r) as [[a r1]|s]; [|discriminate].
  intros H. exists a, r1. split; [reflexivity|exact H].
Qed.

Lemma bind_step {A B} (m : M A) (k : A -> M B) r a r1 :
  m r = Ok (a, r1) -> bind m k r = k a r1.
Proof. intros H. unfold bind. rewrite H. reflexivity. Qed.

Lemma bind_panic {A B} (m : M A) (k : A -> M B) r s :
  m r = Panic s -> bind m k r = Panic s.
Proof. intros H. unfold bind. rewrite H. reflexivity. Qed.

Lemma ret_Ok {A} (a b : A) r r' : ret a r = Ok (b, r') -> a = b /\ r = r'.
Proof. unfold ret. intros H. inversion H. auto. Qed.

Lemma lift_Ok {A} (x : Res A) a r r' :
  lift x r = Ok (a, r') -> x = Ok a /\ r = r'.
Proof. unfold lift. destruct x; intros H; inversion H; auto. Qed.

Lemma lift_step {A} (a : A) r : lift (Ok a) r = Ok (a, r).
Proof. reflexivity. Qed.

(** Take the next call of a run apart. *)
Ltac run_step H :=
  let a := fresh "a" in
  let r1 := fresh "r" in
  let E := fresh "E" in
  let H' := fresh "H" in
  let Hr := fresh "Hr" in
  apply bind_Ok in H; destruct H as (a & r1 & E & H'); rename H' into H;
  try (apply lift_Ok in E; destruct E as [E Hr]; subst r1).

Ltac run_ret H :=
  let H' := fresh "H" in
  let Hr := fresh "Hr" in
  apply ret_Ok in H; destruct H as [H' Hr]; rename H' into H; subst.

Ltac run_lift H :=
  let H' := fresh "H" in
  let Hr := fresh "Hr" in
  apply lift_Ok in H; destruct H as [H' Hr]; rename H' into H; subst.

(** ** The draws stay in range *)

Lemma Intn_range n r x r' : Intn n r = Ok (x, r') -> 0 <= x < n.
Proof.
  unfold Intn. destruct (Z.leb_spec n 0) as [Hn|Hn]; [discriminate|].
  destruct (rand.next r) as [y r0]. intros H. inversion H; subst.
  apply Z.mod_pos_bound. lia.
Qed.

Lemma Intn_panics n r : n <= 0 -> Intn n r = Panic "invalid argument to Intn".
Proof.
  intros Hle. unfold Intn. destruct (Z.leb_spec n 0) as [Hn|Hn]; [reflexivity|lia].
Qed.

Lemma Intn_reaches n x : 0 <= x < n -> forall r, Intn n (x :: r) = Ok (x, r).
Proof.
  intros Hx r. unfold Intn. destruct (Z.leb_spec n 0) as [Hn|Hn]; [lia|].
  simpl. rewrite Z.mod_small by lia. reflexivity.
Qed.

Lemma bigRand_range n r x r' :
  bigRand n r = Ok (x, r') -> 0 <= x /\ (x < n \/ (n <= 0 /\ x = 0)).
Proof.
  unfold bigRand. destruct (Z.leb_spec n 0) as [Hn|Hn].
  - intros H. inversion H; subst. lia.
  - destruct (rand.next r) as [y r0]. intros H. inversion H; subst.
    pose proof (Z.mod_pos_bound y n). lia.
Qed.

Lemma RandPositiveInt_ok max r x r' :
  simulation.RandPositiveInt max r = Ok ((x, None), r') -> 1 <= x <= max.
Proof.
  unfold simulation.RandPositiveInt, sdk.Int_GTE, sdk.OneInt.
  destruct (Z.leb_spec 1 max) as [Hm|Hm]; simpl.
  - intros H. run_step H. run_ret H. inversion H; subst.
    apply bigRand_range in E. lia.
  - intros H. run_ret H. discriminate.
Qed.

Lemma RandPositiveInt_positive max r :
  1 <= max ->
  exists x r', simulation.RandPositiveInt max r = Ok ((x, None), r').
Proof.
  intros Hmax. unfold simulation.RandPositiveInt, sdk.Int_GTE, sdk.OneInt.
  destruct (Z.leb_spec 1 max) as [Hm|Hm]; [|lia]. simpl.
  unfold bind, bigRand. destruct (Z.leb_spec (max - 1) 0) as [Hm'|Hm'].
  - eexists _, _. reflexivity.
  - destruct (rand.next r) as [y r0]. eexists _, _. reflexivity.
Qed.

(** ** Validator selection *)

Lemma RandomValidator_none k ctx r :
  keeper.GetAllValidators k ctx = [] ->
  keeper.RandomValidator k ctx r = Ok ((types.Validator_zero, false), r).
Proof. intros H. unfold keeper.RandomValidator. rewrite H. reflexivity. Qed.

Lemma index_In {A} (s : list A) i a : index s i = Ok a -> In a s.
Proof.
  unfold index. destruct (i <? 0); [discriminate|].
  destruct (nth_error s (Z.to_nat i)) eqn:E; [|discriminate].
  intros H. inversion H; subst. eapply nth_error_In; eauto.
Qed.

Lemma RandomValidator_In k ctx r v r' :
  keeper.RandomValidator k ctx r = Ok ((v, true), r') ->
  In v (keeper.GetAllValidators k ctx).
Proof.
  unfold keeper.RandomValidator.
  destruct (len (keeper.GetAllValidators k ctx) =? 0).
  - intros H. run_ret H. discriminate.
  - intros H. run_step H. run_step H. run_ret H.
    inversion H; subst. eapply index_In; eauto.
Qed.

(** ** No validator: every generator but create-validator skips *)

(** C5. In a state without validators, SimulateMsgEditValidator,
    SimulateMsgDelegate, SimulateMsgUndelegate and SimulateMsgBeginRedelegate
    all return the no-operation message with a nil error, whatever the random
    source holds. *)
Theorem no_validator_noop :
  forall ak k app ctx accs chainID r,
    keeper.GetAllValidators k ctx = [] ->
    (exists o, returns (SimulateMsgEditValidator ak k app ctx accs chainID) r o
               /\ isNoOp o)
    /\ (exists o, returns (SimulateMsgDelegate ak k app ctx accs chainID) r o
                  /\ isNoOp o)
    /\ (exists o, returns (SimulateMsgUndelegate ak k app ctx accs chainID) r o
                  /\ isNoOp o)
    /\ (exists o, returns (SimulateMsgBeginRedelegate ak k app ctx accs chainID) r o
                  /\ isNoOp o).
Proof.
  intros ak k app ctx accs chainID r Hnone.
  repeat split.
  - exists (simulation.NoOpMsg types.ModuleName, [], None). split; [|reflexivity].
    exists r. unfold SimulateMsgEditValidator. rewrite Hnone. reflexivity.
  - exists (simulation.NoOpMsg types.ModuleName, [], None). split; [|reflexivity].
    exists r. unfold SimulateMsgDelegate. rewrite Hnone. reflexivity.
  - exists (simulation.NoOpMsg types.ModuleName, [], None). split; [|reflexivity].
    exists r. unfold SimulateMsgUndelegate.
    rewrite (bind_step _ _ _ _ _ (RandomValidator_none k ctx r Hnone)).
    reflexivity.
  - exists (simulation.NoOpMsg types.ModuleName, [], None). split; [|reflexivity].
    exists r. unfold SimulateMsgBeginRedelegate.
    rewrite (bind_step _ _ _ _ _ (RandomValidator_none k ctx r Hnone)).
    reflexivity.
Qed.

Lemma no_validator_noop_witness :
  keeper.GetAllValidators (memstore.Keeper scenario.empty) scenario.ctx = []
  /\ (exists o,
         returns (SimulateMsgUndelegate (memstore.AccountKeeper scenario.empty)
                    (memstore.Keeper scenario.empty) memstore.accepting
                    scenario.ctx [scenario.alice] "chain") [3; 1; 4] o
         /\ isNoOp o).
Proof.
  split; [reflexivity|].
  apply (no_validator_noop (memstore.AccountKeeper scenario.empty)
           (memstore.Keeper scenario.empty) memstore.accepting scenario.ctx
           [scenario.alice] "chain" [3; 1; 4] eq_refl).
Defined.

(** ** What a successful run went through *)

(** Take a whole run apart, call by call and branch by branch. *)
Ltac run_all H :=
  repeat (cbv beta iota zeta in H;
          lazymatch type of H with
          | bind _ _ _ = Ok _ => run_step H
          | ret _ _ = Ok _ => run_ret H
          | (if ?c then _ else _) _ = Ok _ => destruct c eqn:?
          | (match ?x with _ => _ end) _ = Ok _ => destruct x eqn:?
          end).

Lemma not_success_noop e msg :
  ~ isSuccess (simulation.NoOpMsg types.ModuleName, [], e) msg.
Proof. unfold isSuccess. intros H. inversion H. Qed.

Lemma success_msg m msg :
  isSuccess (simulation.NewOperationMsg m true "", [], None) msg -> msg = m.
Proof. unfold isSuccess. intros H. inversion H. reflexivity. Qed.

Ltac not_success :=
  try (exfalso; eapply not_success_noop; eassumption).

Lemma NewCoin_Ok denom amount c :
  sdk.NewCoin denom amount = Ok c ->
  c = sdk.mkCoin denom amount /\ 0 <= amount /\ sdk.validDenom denom = true.
Proof.
  unfold sdk.NewCoin. destruct (sdk.validDenom denom); simpl; [|discriminate].
  destruct (Z.ltb_spec amount 0) as [Hlt|Hge]; [discriminate|].
  intros H. inversion H. auto.
Qed.

Lemma negb_false b : negb b = false -> b = true.
Proof. destruct b; [reflexivity|discriminate]. Qed.

Lemma RandomAcc_In accs r acc idx r' :
  simulation.RandomAcc accs r = Ok ((acc, idx), r') -> In acc accs.
Proof.
  unfold simulation.RandomAcc. intros H. run_all H.
  inversion H; subst. eapply index_In; eauto.
Qed.

Lemma deref_Ok {A} (x : option A) a : deref x = Ok a -> x = Some a.
Proof. destruct x; simpl; intros H; inversion H; reflexivity. Qed.

(** Turn what a finished run recorded into facts about the state. *)
Ltac facts :=
  repeat match goal with
    | H : negb ?b = false |- _ => apply negb_false in H
    | H : ?b = true |- _ => is_var b; subst b
    | H : deref _ = Ok _ |- _ => apply deref_Ok in H
    | H : sdk.NewCoin _ _ = Ok ?c |- _ =>
        let Hc := fresh "Hc" in
        apply NewCoin_Ok in H; destruct H as (Hc & ? & ?); subst c
    | H : simulation.RandPositiveInt _ _ = Ok (_, None, _) |- _ =>
        apply RandPositiveInt_ok in H
    | H : simulation.RandomAcc _ _ = Ok _ |- _ => apply RandomAcc_In in H
    | H : keeper.RandomValidator _ _ _ = Ok (_, true, _) |- _ =>
        apply RandomValidator_In in H
    | H : index _ _ = Ok _ |- _ => apply index_In in H
    | H1 : ?x = Some ?a, H2 : ?x = Some ?b |- _ =>
        rewrite H1 in H2; inversion H2; subst; clear H2
    end.

(** A successful create-validator run. *)
Lemma create_validator_success ak k app ctx accs chainID r o msg :
  returns (SimulateMsgCreateValidator ak k app ctx accs chainID) r o ->
  isSuccess o msg ->
  exists simAccount account balance amount description commission r1 r2,
    In simAccount accs
    /\ types.GetAccount ak ctx (simulation.Address simAccount) = Some account
    /\ sdk.AmountOf (exported.GetCoins account)
         (types.BondDenom (keeper.GetParams k ctx)) = Ok balance
    /\ 1 <= amount <= balance
    /\ randomCommission r1 = Ok (commission, r2)
    /\ msg = types.NewMsgCreateValidator
               (sdk.ValAddress_of (simulation.Address simAccount))
               (simulation.PubKey simAccount)
               (sdk.mkCoin (types.BondDenom (keeper.GetParams k ctx)) amount)
               description commission sdk.OneInt.
Proof.
  intros [r' H] Hs. unfold SimulateMsgCreateValidator in H.
  run_all H; not_success.
  apply success_msg in Hs. subst msg. facts.
  match goal with
  | Hin : In ?a accs, Hacc : types.GetAccount _ _ _ = Some ?acc,
    Hbal : sdk.AmountOf _ _ = Ok ?bal, Hamt : 1 <= ?amt <= ?bal,
    Hcom : randomCommission ?r1 = Ok (?c, ?r2) |- _ =>
      exists a, acc, bal, amt; eexists _, c, r1, r2; repeat split; auto; lia
  end.
Qed.

(** A successful delegate run. *)
Lemma delegate_success ak k app ctx accs chainID r o msg :
  returns (SimulateMsgDelegate ak k app ctx accs chainID) r o ->
  isSuccess o msg ->
  exists simAccount val account balance amount,
    In simAccount accs
    /\ In val (keeper.GetAllValidators k ctx)
    /\ types.InvalidExRate val = false
    /\ types.GetAccount ak ctx (simulation.Address simAccount) = Some account
    /\ sdk.AmountOf (exported.GetCoins account)
         (types.BondDenom (keeper.GetParams k ctx)) = Ok balance
    /\ 1 <= amount <= balance
    /\ msg = types.NewMsgDelegate (simulation.Address simAccount)
               (types.GetOperator val)
               (sdk.mkCoin (types.BondDenom (keeper.GetParams k ctx)) amount).
Proof.
  intros [r' H] Hs. unfold SimulateMsgDelegate in H.
  run_all H; not_success.
  apply success_msg in Hs. subst msg. facts.
  match goal with
  | Hin : In ?a accs, Hval : In ?v (keeper.GetAllValidators _ _),
    Hacc : types.GetAccount _ _ _ = Some ?acc,
    Hbal : sdk.AmountOf _ _ = Ok ?bal, Hamt : 1 <= ?amt <= ?bal |- _ =>
      exists a, v, acc, bal, amt; repeat split; auto; lia
  end.
Qed.

(** A successful undelegate run. *)
Lemma undelegate_success ak k app ctx accs chainID r o msg :
  returns (SimulateMsgUndelegate ak k app ctx accs chainID) r o ->
  isSuccess o msg ->
  exists validator delegation tokens unbondAmt key,
    In validator (keeper.GetAllValidators k ctx)
    /\ In delegation
         (keeper.GetValidatorDelegations k ctx (types.OperatorAddress validator))
    /\ keeper.HasMaxUnbondingDelegationEntries k ctx
         (types.GetDelegatorAddr delegation) (types.GetOperator validator) = false
    /\ types.TokensFromShares validator (types.GetShares delegation) = Ok tokens
    /\ 1 <= unbondAmt <= sdk.Dec_TruncateInt tokens
    /\ simulation.PrivKey (rangeAccs accs (types.GetDelegatorAddr delegation))
       = Some key
    /\ msg = types.NewMsgUndelegate (types.GetDelegatorAddr delegation)
               (types.GetOperator validator)
               (sdk.mkCoin (keeper.BondDenom k ctx) unbondAmt).
Proof.
  intros [r' H] Hs. unfold SimulateMsgUndelegate in H.
  run_all H; not_success.
  apply success_msg in Hs. subst msg. facts.
  match goal with
  | Hval : In ?v (keeper.GetAllValidators _ _),
    Hdel : In ?d (keeper.GetValidatorDelegations _ _ _),
    Htok : types.TokensFromShares _ _ = Ok ?t, Hamt : 1 <= ?amt <= _,
    Hkey : simulation.PrivKey _ = Some ?key |- _ =>
      exists v, d, t, amt, key; repeat split; auto; lia
  end.
Qed.

(** A successful begin-redelegate run. *)
Lemma redelegate_success ak k app ctx accs chainID r o msg :
  returns (SimulateMsgBeginRedelegate ak k app ctx accs chainID) r o ->
  isSuccess o msg ->
  exists srcVal destVal delegation tokens redAmt shares back key,
    In srcVal (keeper.GetAllValidators k ctx)
    /\ In destVal (keeper.GetAllValidators k ctx)
    /\ In delegation
         (keeper.GetValidatorDelegations k ctx (types.GetOperator srcVal))
    /\ keeper.HasReceivingRedelegation k ctx
         (types.GetDelegatorAddr delegation) (types.GetOperator srcVal) = false
    /\ sdk.Equals (types.GetOperator srcVal) (types.GetOperator destVal)
       || types.InvalidExRate destVal
       || keeper.HasMaxRedelegationEntries k ctx
            (types.GetDelegatorAddr delegation) (types.GetOperator srcVal)
            (types.GetOperator destVal) = false
    /\ types.TokensFromShares srcVal (types.GetShares delegation) = Ok tokens
    /\ 1 <= redAmt <= sdk.Dec_TruncateInt tokens
    /\ types.SharesFromTokens srcVal redAmt = Ok (shares, None)
    /\ types.TokensFromShares srcVal shares = Ok back
    /\ sdk.Int_IsZero (sdk.Dec_TruncateInt back) = false
    /\ simulation.PrivKey (rangeAccs accs (types.GetDelegatorAddr delegation))
       = Some key
    /\ msg = types.NewMsgBeginRedelegate (types.GetDelegatorAddr delegation)
               (types.GetOperator srcVal) (types.GetOperator destVal)
               (sdk.mkCoin (keeper.BondDenom k ctx) redAmt).
Proof.
  intros [r' H] Hs. unfold SimulateMsgBeginRedelegate in H.
  run_all H; not_success.
  apply success_msg in Hs. subst msg. facts.
  match goal with
  | Hsh : types.SharesFromTokens ?v ?amt = Ok (?sh, None),
    Hback : types.TokensFromShares ?v ?sh = Ok ?back,
    Htok : types.TokensFromShares ?v (types.GetShares ?d) = Ok ?t,
    Hguard : sdk.Equals (types.GetOperator ?v) (types.GetOperator ?v0) || _ || _
             = false,
    Hkey : simulation.PrivKey _ = Some ?key |- _ =>
      exists v, v0, d, t, amt, sh, back, key; repeat split; auto; lia
  end.
Qed.

(** ** Running a generator forward *)

Lemma bind_lift {A B} (x : Res A) (a : A) (k : A -> M B) r :
  x = Ok a -> bind (lift x) k r = k a r.
Proof. intros ->. reflexivity. Qed.

Lemma not_positive i : i <= 0 -> sdk.Int_IsPositive i = false.
Proof. intros H. unfold sdk.Int_IsPositive. apply Z.ltb_ge. exact H. Qed.

Lemma is_positive i : 1 <= i -> sdk.Int_IsPositive i = true.
Proof. intros H. unfold sdk.Int_IsPositive. apply Z.ltb_lt. lia. Qed.

Lemma not_zero i : 1 <= i -> sdk.Int_IsZero i = false.
Proof. intros H. unfold sdk.Int_IsZero. apply Z.eqb_neq. lia. Qed.

(** Run the next call of the goal forward with a known result. *)
Ltac forward E := rewrite (bind_step _ _ _ _ _ E); cbv beta iota zeta.
Ltac forward_lift E := rewrite (bind_lift _ _ _ _ E); cbv beta iota zeta.

(** ** Principal amounts *)

(** C7. A successful SimulateMsgCreateValidator or SimulateMsgDelegate carries
    a principal (self-delegation, bond) in the bonding denomination that is
    strictly positive and at most the balance the acting account holds in
    that denomination when the generator is called. *)
Theorem principal_within_balance :
  forall ak k app ctx accs chainID r o msg,
    isSuccess o msg ->
    (returns (SimulateMsgCreateValidator ak k app ctx accs chainID) r o ->
     exists m simAccount account balance,
       msg = types.CreateValidator m
       /\ In simAccount accs
       /\ types.cv_DelegatorAddress m = simulation.Address simAccount
       /\ types.GetAccount ak ctx (simulation.Address simAccount) = Some account
       /\ sdk.AmountOf (exported.GetCoins account)
            (types.BondDenom (keeper.GetParams k ctx)) = Ok balance
       /\ sdk.Denom (types.cv_Value m) = types.BondDenom (keeper.GetParams k ctx)
       /\ 0 < sdk.Amount (types.cv_Value m) <= balance)
    /\ (returns (SimulateMsgDelegate ak k app ctx accs chainID) r o ->
        exists m simAccount account balance,
          msg = types.Delegate m
          /\ In simAccount accs
          /\ types.d_DelegatorAddress m = simulation.Address simAccount
          /\ types.GetAccount ak ctx (simulation.Address simAccount) = Some account
          /\ sdk.AmountOf (exported.GetCoins account)
               (types.BondDenom (keeper.GetParams k ctx)) = Ok balance
          /\ sdk.Denom (types.d_Amount m) = types.BondDenom (keeper.GetParams k ctx)
          /\ 0 < sdk.Amount (types.d_Amount m) <= balance).
Proof.
  intros ak k app ctx accs chainID r o msg Hs. split; intros Hrun.
  - destruct (create_validator_success _ _ _ _ _ _ _ _ _ Hrun Hs)
      as (simAccount & account & balance & amount & description & commission
          & r1 & r2 & Hin & Hacc & Hbal & Hamt & _ & ->).
    eexists _, simAccount, account, balance.
    split; [reflexivity|]. simpl. repeat split; auto; lia.
  - destruct (delegate_success _ _ _ _ _ _ _ _ _ Hrun Hs)
      as (simAccount & val & account & balance & amount
          & Hin & _ & _ & Hacc & Hbal & Hamt & ->).
    eexists _, simAccount, account, balance.
    split; [reflexivity|]. simpl. repeat split; auto; lia.
Qed.

Lemma principal_within_balance_witness :
  exists o msg,
    returns (SimulateMsgCreateValidator (memstore.AccountKeeper scenario.chain)
               (memstore.Keeper scenario.chain) memstore.accepting scenario.ctx
               [scenario.alice] "chain") [0; 4] o
    /\ isSuccess o msg
    /\ exists m simAccount account balance,
         msg = types.CreateValidator m
         /\ In simAccount [scenario.alice]
         /\ types.cv_DelegatorAddress m = simulation.Address simAccount
         /\ types.GetAccount (memstore.AccountKeeper scenario.chain) scenario.ctx
              (simulation.Address simAccount) = Some account
         /\ sdk.AmountOf (exported.GetCoins account) "stake" = Ok balance
         /\ sdk.Denom (types.cv_Value m) = "stake"
         /\ 0 < sdk.Amount (types.cv_Value m) <= balance.
Proof.
  assert (Hrun : exists m,
             returns (SimulateMsgCreateValidator
                        (memstore.AccountKeeper scenario.chain)
                        (memstore.Keeper scenario.chain) memstore.accepting
                        scenario.ctx [scenario.alice] "chain") [0; 4]
               (simulation.NewOperationMsg (types.CreateValidator m) true "",
                [], None)).
  { eexists. eexists. cbv. reflexivity. }
  destruct Hrun as [m Hrun].
  exists (simulation.NewOperationMsg (types.CreateValidator m) true "", [], None),
    (types.CreateValidator m).
  split; [exact Hrun|]. split; [reflexivity|].
  exact (proj1 (principal_within_balance _ _ _ _ _ _ _ _ _ eq_refl) Hrun).
Defined.

(** ** Redelegation between distinct validators *)

(** C8. A successful SimulateMsgBeginRedelegate never carries a source
    validator address equal to its destination validator address. *)
Theorem redelegate_distinct :
  forall ak k app ctx accs chainID r o msg,
    returns (SimulateMsgBeginRedelegate ak k app ctx accs chainID) r o ->
    isSuccess o msg ->
    exists m, msg = types.BeginRedelegate m
              /\ types.r_ValidatorSrcAddress m <> types.r_ValidatorDstAddress m.
Proof.
  intros ak k app ctx accs chainID r o msg Hrun Hs.
  destruct (redelegate_success _ _ _ _ _ _ _ _ _ Hrun Hs)
    as (srcVal & destVal & delegation & tokens & redAmt & shares & back & key
        & _ & _ & _ & _ & Hguard & _ & _ & _ & _ & _ & _ & ->).
  eexists. split; [reflexivity|]. simpl.
  apply orb_false_elim in Hguard. destruct Hguard as [Hguard _].
  apply orb_false_elim in Hguard. destruct Hguard as [Hneq _].
  unfold sdk.Equals in Hneq. apply String.eqb_neq. exact Hneq.
Qed.

Lemma redelegate_distinct_witness :
  exists o msg,
    returns (SimulateMsgBeginRedelegate (memstore.AccountKeeper scenario.chain)
               (memstore.Keeper scenario.chain) memstore.accepting scenario.ctx
               [scenario.alice] "chain") [0; 0; 1; 1] o
    /\ isSuccess o msg
    /\ exists m, msg = types.BeginRedelegate m
                 /\ types.r_ValidatorSrcAddress m <> types.r_ValidatorDstAddress m.
Proof.
  assert (Hrun : exists m,
             returns (SimulateMsgBeginRedelegate
                        (memstore.AccountKeeper scenario.chain)
                        (memstore.Keeper scenario.chain) memstore.accepting
                        scenario.ctx [scenario.alice] "chain") [0; 0; 1; 1]
               (simulation.NewOperationMsg (types.BeginRedelegate m) true "",
                [], None)).
  { eexists. eexists. cbv. reflexivity. }
  destruct Hrun as [m Hrun].
  exists (simulation.NewOperationMsg (types.BeginRedelegate m) true "", [], None),
    (types.BeginRedelegate m).
  split; [exact Hrun|]. split; [reflexivity|].
  exact (redelegate_distinct _ _ _ _ _ _ _ _ _ Hrun eq_refl).
Defined.

(** ** Undelegated amounts *)

(** C9. A successful SimulateMsgUndelegate carries an amount that is strictly
    positive and at most the tokens the selected delegation's shares are
    worth at the validator's rate, truncated; and when that worth is not
    positive, so that no amount can be drawn, the generator returns NoOp. *)
Theorem undelegate_amount_bounded :
  forall ak k app ctx accs chainID r,
    (forall o msg,
        returns (SimulateMsgUndelegate ak k app ctx accs chainID) r o ->
        isSuccess o msg ->
        exists m validator delegation tokens,
          msg = types.Undelegate m
          /\ In validator (keeper.GetAllValidators k ctx)
          /\ In delegation
               (keeper.GetValidatorDelegations k ctx
                  (types.OperatorAddress validator))
          /\ types.u_ValidatorAddress m = types.OperatorAddress validator
          /\ types.u_DelegatorAddress m = types.DelegatorAddress delegation
          /\ types.TokensFromShares validator (types.Shares delegation)
             = Ok tokens
          /\ 0 < sdk.Amount (types.u_Amount m) <= sdk.Dec_TruncateInt tokens)
    /\ (forall validator r1 i r2 delegation tokens,
           keeper.RandomValidator k ctx r = Ok ((validator, true), r1) ->
           Intn (len (keeper.GetValidatorDelegations k ctx
                        (types.OperatorAddress validator))) r1 = Ok (i, r2) ->
           index (keeper.GetValidatorDelegations k ctx
                    (types.OperatorAddress validator)) i = Ok delegation ->
           types.TokensFromShares validator (types.Shares delegation)
           = Ok tokens ->
           sdk.Dec_TruncateInt tokens <= 0 ->
           exists o,
             returns (SimulateMsgUndelegate ak k app ctx accs chainID) r o
             /\ isNoOp o).
Proof.
  intros ak k app ctx accs chainID r. split.
  - intros o msg Hrun Hs.
    destruct (undelegate_success _ _ _ _ _ _ _ _ _ Hrun Hs)
      as (validator & delegation & tokens & unbondAmt & key
          & Hval & Hdel & _ & Htok & Hamt & _ & ->).
    eexists _, validator, delegation, tokens.
    split; [reflexivity|]. simpl. repeat split; auto; lia.
  - intros validator r1 i r2 delegation tokens Hval Hi Hdel Htok Hle.
    exists (simulation.NoOpMsg types.ModuleName, [], None).
    split; [|reflexivity]. exists r2.
    unfold SimulateMsgUndelegate.
    forward Hval. cbn [negb]. forward Hi. forward_lift Hdel.
    destruct (keeper.HasMaxUnbondingDelegationEntries k ctx _ _); [reflexivity|].
    unfold types.GetShares. forward_lift Htok.
    rewrite (not_positive _ Hle). reflexivity.
Qed.

Lemma undelegate_amount_bounded_witness :
  exists o msg,
    returns (SimulateMsgUndelegate (memstore.AccountKeeper scenario.single)
               (memstore.Keeper scenario.single) memstore.accepting scenario.ctx
               [scenario.alice] "chain") [0; 0; 2] o
    /\ isSuccess o msg
    /\ exists m validator delegation tokens,
         msg = types.Undelegate m
         /\ In validator
              (keeper.GetAllValidators (memstore.Keeper scenario.single)
                 scenario.ctx)
         /\ In delegation
              (keeper.GetValidatorDelegations (memstore.Keeper scenario.single)
                 scenario.ctx (types.OperatorAddress validator))
         /\ types.u_ValidatorAddress m = types.OperatorAddress validator
         /\ types.u_DelegatorAddress m = types.DelegatorAddress delegation
         /\ types.TokensFromShares validator (types.Shares delegation)
            = Ok tokens
         /\ 0 < sdk.Amount (types.u_Amount m) <= sdk.Dec_TruncateInt tokens.
Proof.
  assert (Hrun : exists m,
             returns (SimulateMsgUndelegate
                        (memstore.AccountKeeper scenario.single)
                        (memstore.Keeper scenario.single) memstore.accepting
                        scenario.ctx [scenario.alice] "chain") [0; 0; 2]
               (simulation.NewOperationMsg (types.Undelegate m) true "",
                [], None)).
  { eexists. eexists. cbv. reflexivity. }
  destruct Hrun as [m Hrun].
  exists (simulation.NewOperationMsg (types.Undelegate m) true "", [], None),
    (types.Undelegate m).
  split; [exact Hrun|]. split; [reflexivity|].
  exact (proj1 (undelegate_amount_bounded _ _ _ _ _ _ _) _ _ Hrun eq_refl).
Defined.

(** ** The truncation guard *)

(** C2, as the code has it. In SimulateMsgBeginRedelegate, when converting
    the drawn amount to shares at the source validator's rate and back to
    tokens truncates to zero, the outcome is NoOp, and no successful
    redelegation carries such an amount.  SimulateMsgUndelegate does not
    convert the drawn amount at all. *)
Theorem redelegate_truncation_guard :
  forall ak k app ctx accs chainID r,
    (forall srcVal r1 i r2 delegation destVal ok r3 tokens redAmt r4 shares back,
        keeper.RandomValidator k ctx r = Ok ((srcVal, true), r1) ->
        Intn (len (keeper.GetValidatorDelegations k ctx
                     (types.GetOperator srcVal))) r1 = Ok (i, r2) ->
        index (keeper.GetValidatorDelegations k ctx (types.GetOperator srcVal)) i
        = Ok delegation ->
        keeper.RandomValidator k ctx r2 = Ok ((destVal, ok), r3) ->
        types.TokensFromShares srcVal (types.GetShares delegation) = Ok tokens ->
        simulation.RandPositiveInt (sdk.Dec_TruncateInt tokens) r3
        = Ok ((redAmt, None), r4) ->
        types.SharesFromTokens srcVal redAmt = Ok (shares, None) ->
        types.TokensFromShares srcVal shares = Ok back ->
        sdk.Dec_TruncateInt back = 0 ->
        exists o,
          returns (SimulateMsgBeginRedelegate ak k app ctx accs chainID) r o
          /\ isNoOp o)
    /\ (forall o msg,
           returns (SimulateMsgBeginRedelegate ak k app ctx accs chainID) r o ->
           isSuccess o msg ->
           exists m srcVal shares back,
             msg = types.BeginRedelegate m
             /\ In srcVal (keeper.GetAllValidators k ctx)
             /\ types.r_ValidatorSrcAddress m = types.GetOperator srcVal
             /\ types.SharesFromTokens srcVal (sdk.Amount (types.r_Amount m))
                = Ok (shares, None)
             /\ types.TokensFromShares srcVal shares = Ok back
             /\ sdk.Dec_TruncateInt back <> 0).
Proof.
  intros ak k app ctx accs chainID r. split.
  - intros srcVal r1 i r2 delegation destVal ok r3 tokens redAmt r4 shares back
      Hsrc Hi Hdel Hdest Htok Hamt Hsh Hback Hz.
    exists (simulation.NoOpMsg types.ModuleName, [], None).
    split; [|reflexivity]. unfold returns, SimulateMsgBeginRedelegate.
    forward Hsrc. cbn [negb]. forward Hi. forward_lift Hdel.
    destruct (keeper.HasReceivingRedelegation k ctx _ _); [eexists; reflexivity|].
    forward Hdest.
    destruct ok; cbn [negb]; [|eexists; reflexivity].
    destruct (sdk.Equals _ _ || types.InvalidExRate destVal || _);
      [eexists; reflexivity|].
    forward_lift Htok.
    pose proof (RandPositiveInt_ok _ _ _ _ Hamt) as Hrange.
    rewrite (is_positive (sdk.Dec_TruncateInt tokens)) by lia. cbn [negb].
    forward Hamt.
    rewrite (not_zero redAmt) by lia.
    forward_lift Hsh. forward_lift Hback.
    rewrite Hz. eexists; reflexivity.
  - intros o msg Hrun Hs.
    destruct (redelegate_success _ _ _ _ _ _ _ _ _ Hrun Hs)
      as (srcVal & destVal & delegation & tokens & redAmt & shares & back & key
          & Hsrc & _ & _ & _ & _ & _ & _ & Hsh & Hback & Hnz & _ & ->).
    eexists _, srcVal, shares, back. split; [reflexivity|]. simpl.
    repeat split; auto.
    unfold sdk.Int_IsZero in Hnz. apply Z.eqb_neq. exact Hnz.
Qed.

Lemma redelegate_truncation_guard_witness :
  exists o,
    returns (SimulateMsgBeginRedelegate (memstore.AccountKeeper scenario.chain)
               (memstore.Keeper scenario.chain) memstore.accepting scenario.ctx
               [scenario.alice] "chain") [0; 0; 1; 0] o
    /\ isNoOp o.
Proof.
  apply (proj1 (redelegate_truncation_guard
                  (memstore.AccountKeeper scenario.chain)
                  (memstore.Keeper scenario.chain) memstore.accepting
                  scenario.ctx [scenario.alice] "chain" [0; 0; 1; 0])
           scenario.val1 [0; 1; 0] 0 [1; 0] scenario.aliceOnVal1
           scenario.val2 true [0] (sdk.mkDec (6 * scenario.unit_)) 1 []
           (sdk.mkDec 1166666666666666666) (sdk.mkDec 999999999999999999));
    reflexivity.
Defined.

(** An undelegation of 1 token from a validator with 6 tokens for 7 shares
    succeeds although 1 token converts to shares worth less than a token. *)
Lemma undelegate_ignores_truncation :
  types.SharesFromTokens scenario.val1 1
  = Ok (sdk.mkDec 1166666666666666666, None)
  /\ types.TokensFromShares scenario.val1 (sdk.mkDec 1166666666666666666)
     = Ok (sdk.mkDec 999999999999999999)
  /\ sdk.Dec_TruncateInt (sdk.mkDec 999999999999999999) = 0
  /\ SimulateMsgUndelegate (memstore.AccountKeeper scenario.single)
       (memstore.Keeper scenario.single) memstore.accepting scenario.ctx
       [scenario.alice] "chain" [0; 0; 0]
     = Ok ((simulation.NewOperationMsg
              (types.NewMsgUndelegate "alice" "val1" (sdk.mkCoin "stake" 1))
              true "", [], None), []).
Proof. repeat split; vm_compute; reflexivity. Qed.

(** ** Resolving the signing account *)

Lemma len_nonempty {A} (a : A) (s : list A) : In a s -> (len s =? 0) = false.
Proof.
  intros Hin. unfold len. destruct s; [contradiction|].
  apply Z.eqb_neq. simpl List.length. lia.
Qed.

(** C3, as the code has it. In SimulateMsgEditValidator, when the selected
    validator's operator has no entry among the simulation accounts, the
    outcome is an Error if the drawn commission rate passes the validator's
    commission-change rule, and NoOp if it fails it: the rate is checked
    before the account is looked up. *)
Theorem edit_validator_unknown_operator :
  forall ak k app ctx accs chainID r val r1 newRate r2,
    keeper.RandomValidator k ctx r = Ok ((val, true), r1) ->
    simulation.RandomDecAmount
      (types.MaxRate (types.Rates (types.Commission_ val))) r1
    = Ok (newRate, r2) ->
    snd (simulation.FindAccount accs (sdk.AccAddress_of (types.GetOperator val)))
    = false ->
    exists o,
      returns (SimulateMsgEditValidator ak k app ctx accs chainID) r o
      /\ match types.ValidateNewRate (types.Commission_ val) newRate
                 (sdk.BlockHeader_Time ctx) with
         | None => isError o
         | Some _ => isNoOp o
         end.
Proof.
  intros ak k app ctx accs chainID r val r1 newRate r2 Hval Hrate Hacc.
  unfold returns, SimulateMsgEditValidator.
  rewrite (len_nonempty val) by (eapply RandomValidator_In; eauto).
  forward Hval. cbn [negb]. forward Hrate.
  destruct (types.ValidateNewRate _ _ _).
  - eexists. split; [eexists; reflexivity|reflexivity].
  - destruct (simulation.FindAccount accs _) as [simAccount found].
    simpl in Hacc. subst found. cbn [negb].
    eexists. split; [eexists; reflexivity|]. eexists. reflexivity.
Qed.

Lemma edit_validator_unknown_operator_witness :
  exists o,
    returns (SimulateMsgEditValidator (memstore.AccountKeeper scenario.chain)
               (memstore.Keeper scenario.chain) memstore.accepting scenario.ctx
               [scenario.alice] "chain") [0; 2; 105000000000000000] o
    /\ isError o.
Proof.
  exact (edit_validator_unknown_operator
           (memstore.AccountKeeper scenario.chain)
           (memstore.Keeper scenario.chain) memstore.accepting scenario.ctx
           [scenario.alice] "chain" [0; 2; 105000000000000000]
           scenario.val1 [2; 105000000000000000]
           (sdk.mkDec 105000000000000000) [] eq_refl eq_refl eq_refl).
Defined.

(** An hour after the last commission change every new rate is refused: the
    generator skips, although the operator of the selected validator is not
    a simulation account. *)
Lemma edit_validator_skips_before_lookup :
  keeper.RandomValidator (memstore.Keeper scenario.chain) scenario.early [0; 0]
  = Ok ((scenario.val1, true), [0])
  /\ simulation.FindAccount [scenario.alice]
       (sdk.AccAddress_of (types.GetOperator scenario.val1))
     = (simulation.Account_zero, false)
  /\ SimulateMsgEditValidator (memstore.AccountKeeper scenario.chain)
       (memstore.Keeper scenario.chain) memstore.accepting scenario.early
       [scenario.alice] "chain" [0; 0]
     = Ok ((simulation.NoOpMsg types.ModuleName, [], None), []).
Proof. repeat split; vm_compute; reflexivity. Qed.

(** ** Delegators without a simulation account *)

Lemma rangeAccs_absent accs delAddr :
  (forall acc, In acc accs ->
               sdk.Equals (simulation.Address acc) delAddr = false) ->
  rangeAccs accs delAddr = simulation.Account_zero.
Proof.
  induction accs as [|acc rest IH]; intros Habs; simpl; [reflexivity|].
  rewrite (Habs acc) by (left; reflexivity).
  apply IH. intros acc' Hin. apply Habs. right. exact Hin.
Qed.

Ltac forward_in H E :=
  rewrite (bind_step _ _ _ _ _ E) in H; cbv beta iota zeta in H.
Ltac forward_lift_in H E :=
  rewrite (bind_lift _ _ _ _ E) in H; cbv beta iota zeta in H.

(** Close a branch of a run that ended without a message. *)
Ltac skipped_or_failed :=
  first [ left; reflexivity | right; eexists; reflexivity ].

Lemma undelegate_unknown_delegator ak k app ctx accs chainID r validator r1 i r2
    delegation :
  keeper.RandomValidator k ctx r = Ok ((validator, true), r1) ->
  Intn (len (keeper.GetValidatorDelegations k ctx
               (types.OperatorAddress validator))) r1 = Ok (i, r2) ->
  index (keeper.GetValidatorDelegations k ctx (types.OperatorAddress validator)) i
  = Ok delegation ->
  (forall acc, In acc accs ->
     sdk.Equals (simulation.Address acc) (types.GetDelegatorAddr delegation)
     = false) ->
  (forall o, returns (SimulateMsgUndelegate ak k app ctx accs chainID) r o ->
             isNoOp o \/ isError o)
  /\ (forall tokens,
         keeper.HasMaxUnbondingDelegationEntries k ctx
           (types.GetDelegatorAddr delegation) (types.GetOperator validator)
         = false ->
         types.TokensFromShares validator (types.GetShares delegation)
         = Ok tokens ->
         1 <= sdk.Dec_TruncateInt tokens ->
         sdk.validDenom (keeper.BondDenom k ctx) = true ->
         exists o, returns (SimulateMsgUndelegate ak k app ctx accs chainID) r o
                   /\ isError o).
Proof.
  intros Hval Hi Hdel Habs.
  pose proof (rangeAccs_absent _ _ Habs) as Hzero. split.
  - intros o [r' H]. unfold SimulateMsgUndelegate in H.
    forward_in H Hval. cbn [negb] in H. forward_in H Hi. forward_lift_in H Hdel.
    rewrite Hzero in H. cbn [simulation.PrivKey simulation.Account_zero] in H.
    run_all H; skipped_or_failed.
  - intros tokens Hcap Htok Hpos Hdenom.
    destruct (RandPositiveInt_positive _ r2 Hpos) as (x & r3 & Hx).
    pose proof (RandPositiveInt_ok _ _ _ _ Hx) as Hrange.
    unfold returns, SimulateMsgUndelegate.
    forward Hval. cbn [negb]. forward Hi. forward_lift Hdel.
    rewrite Hcap. forward_lift Htok.
    rewrite (is_positive _ Hpos). cbn [negb]. forward Hx.
    rewrite (not_zero x) by lia.
    unfold sdk.NewCoin. rewrite Hdenom. cbn [negb].
    destruct (Z.ltb_spec x 0) as [Hneg|_]; [lia|].
    rewrite bind_step with (a := sdk.mkCoin (keeper.BondDenom k ctx) x) (r1 := r3)
      by reflexivity.
    cbv beta iota zeta. rewrite Hzero.
    cbn [simulation.PrivKey simulation.Account_zero].
    eexists. split; [eexists; reflexivity|]. eexists. reflexivity.
Qed.

Lemma redelegate_unknown_delegator ak k app ctx accs chainID r srcVal r1 i r2
    delegation :
  keeper.RandomValidator k ctx r = Ok ((srcVal, true), r1) ->
  Intn (len (keeper.GetValidatorDelegations k ctx (types.GetOperator srcVal))) r1
  = Ok (i, r2) ->
  index (keeper.GetValidatorDelegations k ctx (types.GetOperator srcVal)) i
  = Ok delegation ->
  (forall acc, In acc accs ->
     sdk.Equals (simulation.Address acc) (types.GetDelegatorAddr delegation)
     = false) ->
  (forall o, returns (SimulateMsgBeginRedelegate ak k app ctx accs chainID) r o ->
             isNoOp o \/ isError o)
  /\ (forall destVal r3 tokens redAmt r4 shares back,
         keeper.HasReceivingRedelegation k ctx
           (types.GetDelegatorAddr delegation) (types.GetOperator srcVal)
         = false ->
         keeper.RandomValidator k ctx r2 = Ok ((destVal, true), r3) ->
         sdk.Equals (types.GetOperator srcVal) (types.GetOperator destVal)
         || types.InvalidExRate destVal
         || keeper.HasMaxRedelegationEntries k ctx
              (types.GetDelegatorAddr delegation) (types.GetOperator srcVal)
              (types.GetOperator destVal) = false ->
         types.TokensFromShares srcVal (types.GetShares delegation)
         = Ok tokens ->
         simulation.RandPositiveInt (sdk.Dec_TruncateInt tokens) r3
         = Ok ((redAmt, None), r4) ->
         types.SharesFromTokens srcVal redAmt = Ok (shares, None) ->
         types.TokensFromShares srcVal shares = Ok back ->
         sdk.Dec_TruncateInt back <> 0 ->
         exists o,
           returns (SimulateMsgBeginRedelegate ak k app ctx accs chainID) r o
           /\ isError o).
Proof.
  intros Hsrc Hi Hdel Habs.
  pose proof (rangeAccs_absent _ _ Habs) as Hzero. split.
  - intros o [r' H]. unfold SimulateMsgBeginRedelegate in H.
    forward_in H Hsrc. cbn [negb] in H. forward_in H Hi. forward_lift_in H Hdel.
    rewrite Hzero in H. cbn [simulation.PrivKey simulation.Account_zero] in H.
    run_all H; skipped_or_failed.
  - intros destVal r3 tokens redAmt r4 shares back
      Hrecv Hdest Hguard Htok Hamt Hsh Hback Hnz.
    pose proof (RandPositiveInt_ok _ _ _ _ Hamt) as Hrange.
    unfold returns, SimulateMsgBeginRedelegate.
    forward Hsrc. cbn [negb]. forward Hi. forward_lift Hdel.
    rewrite Hrecv. forward Hdest. cbn [negb]. rewrite Hguard.
    forward_lift Htok.
    rewrite (is_positive (sdk.Dec_TruncateInt tokens)) by lia. cbn [negb].
    forward Hamt. rewrite (not_zero redAmt) by lia.
    forward_lift Hsh. forward_lift Hback.
    replace (sdk.Int_IsZero (sdk.Dec_TruncateInt back)) with false
      by (symmetry; apply Z.eqb_neq; exact Hnz).
    rewrite Hzero. cbn [simulation.PrivKey simulation.Account_zero].
    eexists. split; [eexists; reflexivity|]. eexists. reflexivity.
Qed.

(** C6, as the code has it. In SimulateMsgUndelegate and
    SimulateMsgBeginRedelegate, when the delegator of the selected delegation
    has no account among the simulation accounts, the outcome is never a
    Success; it is an Error once the guards that come before the account
    lookup have let the run through, and NoOp when one of them skips. *)
Theorem unknown_delegator_never_succeeds :
  forall ak k app ctx accs chainID r validator r1 i r2 delegation,
    keeper.RandomValidator k ctx r = Ok ((validator, true), r1) ->
    Intn (len (keeper.GetValidatorDelegations k ctx
                 (types.OperatorAddress validator))) r1 = Ok (i, r2) ->
    index (keeper.GetValidatorDelegations k ctx
             (types.OperatorAddress validator)) i = Ok delegation ->
    (forall acc, In acc accs ->
       sdk.Equals (simulation.Address acc) (types.GetDelegatorAddr delegation)
       = false) ->
    (forall o, returns (SimulateMsgUndelegate ak k app ctx accs chainID) r o ->
               isNoOp o \/ isError o)
    /\ (forall o,
           returns (SimulateMsgBeginRedelegate ak k app ctx accs chainID) r o ->
           isNoOp o \/ isError o)
    /\ (forall tokens,
           keeper.HasMaxUnbondingDelegationEntries k ctx
             (types.GetDelegatorAddr delegation) (types.GetOperator validator)
           = false ->
           types.TokensFromShares validator (types.GetShares delegation)
           = Ok tokens ->
           1 <= sdk.Dec_TruncateInt tokens ->
           sdk.validDenom (keeper.BondDenom k ctx) = true ->
           exists o,
             returns (SimulateMsgUndelegate ak k app ctx accs chainID) r o
             /\ isError o)
    /\ (forall destVal r3 tokens redAmt r4 shares back,
           keeper.HasReceivingRedelegation k ctx
             (types.GetDelegatorAddr delegation) (types.GetOperator validator)
           = false ->
           keeper.RandomValidator k ctx r2 = Ok ((destVal, true), r3) ->
           sdk.Equals (types.GetOperator validator) (types.GetOperator destVal)
           || types.InvalidExRate destVal
           || keeper.HasMaxRedelegationEntries k ctx
                (types.GetDelegatorAddr delegation) (types.GetOperator validator)
                (types.GetOperator destVal) = false ->
           types.TokensFromShares validator (types.GetShares delegation)
           = Ok tokens ->
           simulation.RandPositiveInt (sdk.Dec_TruncateInt tokens) r3
           = Ok ((redAmt, None), r4) ->
           types.SharesFromTokens validator redAmt = Ok (shares, None) ->
           types.TokensFromShares validator shares = Ok back ->
           sdk.Dec_TruncateInt back <> 0 ->
           exists o,
             returns (SimulateMsgBeginRedelegate ak k app ctx accs chainID) r o
             /\ isError o).
Proof.
  intros ak k app ctx accs chainID r validator r1 i r2 delegation
    Hval Hi Hdel Habs.
  destruct (undelegate_unknown_delegator ak k app ctx accs chainID _ _ _ _ _ _
              Hval Hi Hdel Habs) as [Hu1 Hu2].
  destruct (redelegate_unknown_delegator ak k app ctx accs chainID _ _ _ _ _ _
              Hval Hi Hdel Habs) as [Hr1 Hr2].
  repeat split; assumption.
Qed.

Lemma unknown_delegator_never_succeeds_witness :
  exists o,
    returns (SimulateMsgUndelegate (memstore.AccountKeeper scenario.stranger)
               (memstore.Keeper scenario.stranger) memstore.accepting
               scenario.ctx [scenario.alice] "chain") [0; 0; 5] o
    /\ isError o.
Proof.
  refine (proj1 (proj2 (proj2
            (unknown_delegator_never_succeeds
               (memstore.AccountKeeper scenario.stranger)
               (memstore.Keeper scenario.stranger) memstore.accepting
               scenario.ctx [scenario.alice] "chain" [0; 0; 5]
               scenario.val2 [0; 5] 0 [5]
               (types.mkDelegation "carol" "val2"
                  (sdk.mkDec (100 * scenario.unit_)))
               eq_refl eq_refl eq_refl _)))
            (sdk.mkDec (100 * scenario.unit_)) eq_refl eq_refl _ eq_refl).
  - intros acc [<-|[]]. reflexivity.
  - vm_compute. discriminate.
Defined.

(** Carol is not a simulation account, yet both generators skip with a nil
    error on her delegation: she is at the cap of unbonding entries, and a
    redelegation into the validator is still running. *)
Lemma unknown_delegator_skipped :
  index (keeper.GetValidatorDelegations (memstore.Keeper scenario.capped)
           scenario.ctx "val1") 0 = Ok scenario.carolOnVal1
  /\ rangeAccs [scenario.alice] (types.GetDelegatorAddr scenario.carolOnVal1)
     = simulation.Account_zero
  /\ SimulateMsgUndelegate (memstore.AccountKeeper scenario.capped)
       (memstore.Keeper scenario.capped) memstore.accepting scenario.ctx
       [scenario.alice] "chain" [0; 0]
     = Ok ((simulation.NoOpMsg types.ModuleName, [], None), [])
  /\ SimulateMsgBeginRedelegate (memstore.AccountKeeper scenario.capped)
       (memstore.Keeper scenario.capped) memstore.accepting scenario.ctx
       [scenario.alice] "chain" [0; 0]
     = Ok ((simulation.NoOpMsg types.ModuleName, [], None), []).
Proof. repeat split; vm_compute; reflexivity. Qed.

(** ** The draws of a description and of commission rates always return *)

Lemma Intn_total n r : 0 < n -> exists x r', Intn n r = Ok (x, r').
Proof.
  intros Hn. unfold Intn. destruct (Z.leb_spec n 0) as [Hle|_]; [lia|].
  destruct (rand.next r) as [y r0]. eexists _, _. reflexivity.
Qed.

Lemma bigRand_total n r : exists x r', bigRand n r = Ok (x, r').
Proof.
  unfold bigRand. destruct (n <=? 0); [eexists _, _; reflexivity|].
  destruct (rand.next r) as [y r0]. eexists _, _. reflexivity.
Qed.

Lemma RandStringOfLength_total n :
  forall r, exists s r', simulation.RandStringOfLength n r = Ok (s, r').
Proof.
  induction n as [|n IH]; intros r; simpl.
  - eexists _, _. reflexivity.
  - destruct (Intn_total 62 r) as (x & r1 & Hx); [lia|].
    destruct (IH r1) as (s & r2 & Hs).
    eexists _, _. forward Hx. forward Hs. reflexivity.
Qed.

Lemma randomDescription_total r :
  exists d r', randomDescription r = Ok (d, r').
Proof.
  unfold randomDescription.
  destruct (RandStringOfLength_total 10 r) as (s1 & r1 & H1).
  destruct (RandStringOfLength_total 10 r1) as (s2 & r2 & H2).
  destruct (RandStringOfLength_total 10 r2) as (s3 & r3 & H3).
  destruct (RandStringOfLength_total 10 r3) as (s4 & r4 & H4).
  destruct (RandStringOfLength_total 10 r4) as (s5 & r5 & H5).
  eexists _, _. forward H1. forward H2. forward H3. forward H4. forward H5.
  reflexivity.
Qed.

Lemma RandomDecAmount_total max r :
  exists d r', simulation.RandomDecAmount max r = Ok (d, r').
Proof.
  unfold simulation.RandomDecAmount.
  destruct (Intn_total 10 r) as (c & r1 & Hc); [lia|]. forward Hc.
  destruct (c =? 0); [eexists _, _; reflexivity|].
  destruct (c =? 1); [eexists _, _; reflexivity|].
  destruct (bigRand_total (sdk.DecInt max) r1) as (x & r2 & Hx).
  forward Hx. eexists _, _. reflexivity.
Qed.

Lemma randomCommission_total r :
  exists c r', randomCommission r = Ok (c, r').
Proof.
  unfold randomCommission, simulation.RandIntBetween.
  destruct (Intn_total (100 - 0) r) as (i & r1 & Hi); [lia|].
  rewrite (bind_step _ _ _ _ _ (bind_step _ _ _ _ _ Hi)). cbv beta iota zeta.
  unfold ret at 1.
  assert (Hdec : sdk.NewDecWithPrec (i + 0) 2 = Ok (sdk.mkDec ((i + 0) * 10 ^ 16)))
    by reflexivity.
  forward_lift Hdec.
  destruct (RandomDecAmount_total (sdk.mkDec ((i + 0) * 10 ^ 16)) r1)
    as (rate & r2 & Hrate).
  destruct (RandomDecAmount_total (sdk.mkDec ((i + 0) * 10 ^ 16)) r2)
    as (change & r3 & Hchange).
  forward Hrate. forward Hchange. eexists _, _. reflexivity.
Qed.

(** ** A principal above the spendable coins *)

Lemma bind_ret {A B} (a : A) (k : A -> M B) r : bind (ret a) k r = k a r.
Proof. reflexivity. Qed.

Lemma delivered_run (app : baseapp.BaseApp) tx msg r :
  (if negb (baseapp.IsOK (baseapp.Deliver app tx)) then
     ret (simulation.NoOpMsg types.ModuleName, [],
          Some (baseapp.Log (baseapp.Deliver app tx)))
   else ret (simulation.NewOperationMsg msg true "", [], None)) r
  = Ok (delivered app tx msg, r).
Proof.
  unfold delivered. cbv zeta.
  destruct (negb (baseapp.IsOK (baseapp.Deliver app tx))); reflexivity.
Qed.

(** C10. In SimulateMsgCreateValidator and SimulateMsgDelegate, when taking
    the principal off the spendable coins of the account leaves a negative
    amount, the generator neither skips nor fails there: it draws no fee,
    builds the transaction with nil fees and delivers it. *)
Theorem negative_remainder_sends_without_fees :
  forall ak k app ctx accs chainID r,
    (forall simAccount idx r1 account balance amount r2 selfDelegation,
        simulation.RandomAcc accs r = Ok ((simAccount, idx), r1) ->
        snd (keeper.GetValidator k ctx
               (sdk.ValAddress_of (simulation.Address simAccount))) = false ->
        types.GetAccount ak ctx (simulation.Address simAccount) = Some account ->
        sdk.AmountOf (exported.GetCoins account)
          (types.BondDenom (keeper.GetParams k ctx)) = Ok balance ->
        simulation.RandPositiveInt balance r1 = Ok ((amount, None), r2) ->
        sdk.NewCoin (types.BondDenom (keeper.GetParams k ctx)) amount
        = Ok selfDelegation ->
        snd (sdk.SafeSub (exported.SpendableCoins account (sdk.BlockTime ctx))
               [selfDelegation]) = true ->
        exists description r3 commission r4,
          randomDescription r2 = Ok (description, r3)
          /\ randomCommission r3 = Ok (commission, r4)
          /\ let msg := types.NewMsgCreateValidator
                          (sdk.ValAddress_of (simulation.Address simAccount))
                          (simulation.PubKey simAccount) selfDelegation
                          description commission sdk.OneInt in
             let tx := helpers.GenTx [msg] [] chainID
                         [exported.GetAccountNumber account]
                         [exported.GetSequence account]
                         (simulation.PrivKey simAccount) in
             SimulateMsgCreateValidator ak k app ctx accs chainID r
             = Ok (delivered app tx msg, r4))
    /\ (forall simAccount idx r1 val r2 account balance amount r3 bondAmt,
           simulation.RandomAcc accs r = Ok ((simAccount, idx), r1) ->
           keeper.RandomValidator k ctx r1 = Ok ((val, true), r2) ->
           types.InvalidExRate val = false ->
           types.GetAccount ak ctx (simulation.Address simAccount) = Some account ->
           sdk.AmountOf (exported.GetCoins account)
             (types.BondDenom (keeper.GetParams k ctx)) = Ok balance ->
           simulation.RandPositiveInt balance r2 = Ok ((amount, None), r3) ->
           sdk.NewCoin (types.BondDenom (keeper.GetParams k ctx)) amount
           = Ok bondAmt ->
           snd (sdk.SafeSub (exported.SpendableCoins account (sdk.BlockTime ctx))
                  [bondAmt]) = true ->
           let msg := types.NewMsgDelegate (simulation.Address simAccount)
                        (types.GetOperator val) bondAmt in
           let tx := helpers.GenTx [msg] [] chainID
                       [exported.GetAccountNumber account]
                       [exported.GetSequence account]
                       (simulation.PrivKey simAccount) in
           SimulateMsgDelegate ak k app ctx accs chainID r
           = Ok (delivered app tx msg, r3)).
Proof.
  intros ak k app ctx accs chainID r. split.
  - intros simAccount idx r1 account balance amount r2 selfDelegation
      Hacc Hfound Haccount Hbal Hamt Hcoin Hneg.
    destruct (randomDescription_total r2) as (description & r3 & Hdesc).
    destruct (randomCommission_total r3) as (commission & r4 & Hcom).
    exists description, r3, commission, r4.
    split; [exact Hdesc|]. split; [exact Hcom|]. cbv zeta.
    pose proof (RandPositiveInt_ok _ _ _ _ Hamt) as Hrange.
    unfold SimulateMsgCreateValidator. forward Hacc.
    destruct (keeper.GetValidator k ctx _) as [v found]. simpl in Hfound.
    subst found. rewrite Haccount. cbn [deref].
    forward_lift (eq_refl (Ok account)). forward_lift Hbal.
    rewrite (is_positive balance) by lia. cbn [negb].
    forward Hamt. forward_lift Hcoin. forward_lift (eq_refl (Ok account)).
    destruct (sdk.SafeSub _ _) as [coins hasNeg]. simpl in Hneg. subst hasNeg.
    cbn [negb]. rewrite bind_ret.
    cbv beta iota zeta. forward Hdesc. forward Hcom.
    apply delivered_run.
  - intros simAccount idx r1 val r2 account balance amount r3 bondAmt
      Hacc Hval Hrate Haccount Hbal Hamt Hcoin Hneg. cbv zeta.
    pose proof (RandPositiveInt_ok _ _ _ _ Hamt) as Hrange.
    unfold SimulateMsgDelegate.
    rewrite (len_nonempty val) by (eapply RandomValidator_In; eauto).
    forward Hacc. forward Hval. cbn [negb]. rewrite Hrate.
    rewrite Haccount. cbn [deref].
    forward_lift (eq_refl (Ok account)). forward_lift Hbal.
    rewrite (is_positive balance) by lia. cbn [negb].
    forward Hamt. forward_lift Hcoin. forward_lift (eq_refl (Ok account)).
    destruct (sdk.SafeSub _ _) as [coins hasNeg]. simpl in Hneg. subst hasNeg.
    cbn [negb]. rewrite bind_ret.
    cbv beta iota zeta.
    apply delivered_run.
Qed.

Lemma negative_remainder_sends_without_fees_witness :
  snd (sdk.SafeSub [sdk.mkCoin "stake" 3] [sdk.mkCoin "stake" 10]) = true
  /\ exists description r3 commission r4,
       randomDescription [] = Ok (description, r3)
       /\ randomCommission r3 = Ok (commission, r4)
       /\ SimulateMsgCreateValidator (memstore.AccountKeeper scenario.vesting)
            (memstore.Keeper scenario.vesting) memstore.refusing scenario.ctx
            [scenario.alice] "chain" [0; 9]
          = Ok (delivered memstore.refusing
                  (helpers.GenTx
                     [types.NewMsgCreateValidator "alice" (Some "alice-pub")
                        (sdk.mkCoin "stake" 10) description commission 1]
                     [] "chain" [1] [0] (Some "alice-priv"))
                  (types.NewMsgCreateValidator "alice" (Some "alice-pub")
                     (sdk.mkCoin "stake" 10) description commission 1), r4).
Proof.
  split; [reflexivity|].
  exact (proj1 (negative_remainder_sends_without_fees
                  (memstore.AccountKeeper scenario.vesting)
                  (memstore.Keeper scenario.vesting) memstore.refusing
                  scenario.ctx [scenario.alice] "chain" [0; 9])
           scenario.alice 0 [9]
           (exported.mkAccount [sdk.mkCoin "stake" 50]
              (fun _ => [sdk.mkCoin "stake" 3]) 1 0)
           50 10 [] (sdk.mkCoin "stake" 10)
           eq_refl eq_refl eq_refl eq_refl eq_refl eq_refl eq_refl).
Defined.

(** ** A validator without delegations *)

(** C1 fails on the code. When the selected validator has no delegation,
    SimulateMsgUndelegate and SimulateMsgBeginRedelegate do not skip: the
    index of the delegation is drawn with [r.Intn(0)], which panics. *)
Theorem no_delegations_panics :
  forall ak k app ctx accs chainID r validator r1,
    keeper.RandomValidator k ctx r = Ok ((validator, true), r1) ->
    keeper.GetValidatorDelegations k ctx (types.OperatorAddress validator) = [] ->
    SimulateMsgUndelegate ak k app ctx accs chainID r
    = Panic "invalid argument to Intn"
    /\ SimulateMsgBeginRedelegate ak k app ctx accs chainID r
       = Panic "invalid argument to Intn".
Proof.
  intros ak k app ctx accs chainID r validator r1 Hval Hnone. split.
  - unfold SimulateMsgUndelegate. forward Hval. cbn [negb].
    rewrite Hnone. apply bind_panic. apply Intn_panics. reflexivity.
  - unfold SimulateMsgBeginRedelegate. forward Hval. cbn [negb].
    unfold types.GetOperator. rewrite Hnone.
    apply bind_panic. apply Intn_panics. reflexivity.
Qed.

Lemma no_delegations_panics_witness :
  keeper.GetValidatorDelegations (memstore.Keeper scenario.undelegated)
    scenario.ctx "val2" = []
  /\ SimulateMsgUndelegate (memstore.AccountKeeper scenario.undelegated)
       (memstore.Keeper scenario.undelegated) memstore.accepting scenario.ctx
       [scenario.alice] "chain" [0; 0]
     = Panic "invalid argument to Intn"
  /\ SimulateMsgBeginRedelegate (memstore.AccountKeeper scenario.undelegated)
       (memstore.Keeper scenario.undelegated) memstore.accepting scenario.ctx
       [scenario.alice] "chain" [0; 0]
     = Panic "invalid argument to Intn".
Proof.
  split; [reflexivity|].
  exact (no_delegations_panics (memstore.AccountKeeper scenario.undelegated)
           (memstore.Keeper scenario.undelegated) memstore.accepting
           scenario.ctx [scenario.alice] "chain" [0; 0] scenario.val2 [0]
           eq_refl eq_refl).
Defined.

(** * Further properties of the generators *)

(** ** Looking accounts up by address *)

Lemma FindAccount_found accs address simAccount :
  simulation.FindAccount accs address = (simAccount, true) ->
  In simAccount accs /\ simulation.Address simAccount = address.
Proof.
  induction accs as [|acc rest IH]; simpl; [discriminate|].
  destruct (sdk.Equals (simulation.Address acc) address) eqn:Heq.
  - intros H. inversion H; subst. split; [left; reflexivity|].
    apply String.eqb_eq. exact Heq.
  - intros H. destruct (IH H) as [Hin Haddr]. split; [right; exact Hin|exact Haddr].
Qed.

Lemma rangeAccs_key accs delAddr key :
  simulation.PrivKey (rangeAccs accs delAddr) = Some key ->
  In (rangeAccs accs delAddr) accs
  /\ simulation.Address (rangeAccs accs delAddr) = delAddr.
Proof.
  induction accs as [|acc rest IH]; simpl; [discriminate|].
  destruct (sdk.Equals (simulation.Address acc) delAddr) eqn:Heq.
  - intros _. split; [left; reflexivity|]. apply String.eqb_eq. exact Heq.
  - intros H. destruct (IH H) as [Hin Haddr]. split; [right; exact Hin|exact Haddr].
Qed.

(** ** Every way a run can end *)

Ltac ended :=
  first [ left; reflexivity
        | right; left; eexists; reflexivity
        | right; right ].

Lemma create_validator_run ak k app ctx accs chainID r o :
  returns (SimulateMsgCreateValidator ak k app ctx accs chainID) r o ->
  isNoOp o \/ isError o
  \/ exists simAccount account balance amount description commission fees,
       In simAccount accs
       /\ snd (keeper.GetValidator k ctx
                 (sdk.ValAddress_of (simulation.Address simAccount))) = false
       /\ types.GetAccount ak ctx (simulation.Address simAccount) = Some account
       /\ sdk.AmountOf (exported.GetCoins account)
            (types.BondDenom (keeper.GetParams k ctx)) = Ok balance
       /\ 1 <= amount <= balance
       /\ baseapp.IsOK
            (baseapp.Deliver app
               (helpers.GenTx
                  [types.NewMsgCreateValidator
                     (sdk.ValAddress_of (simulation.Address simAccount))
                     (simulation.PubKey simAccount)
                     (sdk.mkCoin (types.BondDenom (keeper.GetParams k ctx)) amount)
                     description commission sdk.OneInt]
                  fees chainID [exported.GetAccountNumber account]
                  [exported.GetSequence account] (simulation.PrivKey simAccount)))
          = true
       /\ o = (simulation.NewOperationMsg
                 (types.NewMsgCreateValidator
                    (sdk.ValAddress_of (simulation.Address simAccount))
                    (simulation.PubKey simAccount)
                    (sdk.mkCoin (types.BondDenom (keeper.GetParams k ctx)) amount)
                    description commission sdk.OneInt) true "", [], None).
Proof.
  intros [r' H]. unfold SimulateMsgCreateValidator in H.
  run_all H; ended. facts.
  match goal with
  | Hin : In ?a accs, Hacc : types.GetAccount _ _ _ = Some ?acc,
    Hval : keeper.GetValidator _ _ _ = (_, false),
    Hbal : sdk.AmountOf _ _ = Ok ?bal, Hamt : 1 <= ?amt <= ?bal,
    Hok : baseapp.IsOK (baseapp.Deliver _ (helpers.GenTx [types.NewMsgCreateValidator _ _ _ ?d ?c _] ?f _ _ _ _)) = true |- _ =>
      exists a, acc, bal, amt, d, c, f; rewrite Hval;
      repeat split; auto; lia
  end.
Qed.

Lemma edit_validator_run ak k app ctx accs chainID r o :
  returns (SimulateMsgEditValidator ak k app ctx accs chainID) r o ->
  isNoOp o \/ isError o
  \/ exists val newRate simAccount account description fees,
       In val (keeper.GetAllValidators k ctx)
       /\ types.ValidateNewRate (types.Commission_ val) newRate
            (sdk.BlockHeader_Time ctx) = None
       /\ In simAccount accs
       /\ simulation.Address simAccount = sdk.AccAddress_of (types.GetOperator val)
       /\ types.GetAccount ak ctx (simulation.Address simAccount) = Some account
       /\ baseapp.IsOK
            (baseapp.Deliver app
               (helpers.GenTx
                  [types.NewMsgEditValidator (types.GetOperator val) description
                     (Some newRate) None]
                  fees chainID [exported.GetAccountNumber account]
                  [exported.GetSequence account] (simulation.PrivKey simAccount)))
          = true
       /\ o = (simulation.NewOperationMsg
                 (types.NewMsgEditValidator (types.GetOperator val) description
                    (Some newRate) None) true "", [], None).
Proof.
  intros [r' H]. unfold SimulateMsgEditValidator in H.
  run_all H; ended. facts.
  match goal with
  | Hval : In ?v (keeper.GetAllValidators _ _),
    Hrate : types.ValidateNewRate _ ?nr _ = None,
    Hfind : simulation.FindAccount _ _ = (?a, true),
    Hacc : types.GetAccount _ _ _ = Some ?acc,
    Hok : baseapp.IsOK (baseapp.Deliver _ (helpers.GenTx [types.NewMsgEditValidator _ ?d _ _] ?f _ _ _ _)) = true |- _ =>
      destruct (FindAccount_found _ _ _ Hfind) as [Hin Haddr];
      exists v, nr, a, acc, d, f; repeat split; auto
  end.
Qed.

Lemma delegate_run ak k app ctx accs chainID r o :
  returns (SimulateMsgDelegate ak k app ctx accs chainID) r o ->
  isNoOp o \/ isError o
  \/ exists simAccount val account balance amount fees,
       In simAccount accs
       /\ In val (keeper.GetAllValidators k ctx)
       /\ types.InvalidExRate val = false
       /\ types.GetAccount ak ctx (simulation.Address simAccount) = Some account
       /\ sdk.AmountOf (exported.GetCoins account)
            (types.BondDenom (keeper.GetParams k ctx)) = Ok balance
       /\ 1 <= amount <= balance
       /\ baseapp.IsOK
            (baseapp.Deliver app
               (helpers.GenTx
                  [types.NewMsgDelegate (simulation.Address simAccount)
                     (types.GetOperator val)
                     (sdk.mkCoin (types.BondDenom (keeper.GetParams k ctx)) amount)]
                  fees chainID [exported.GetAccountNumber account]
                  [exported.GetSequence account] (simulation.PrivKey simAccount)))
          = true
       /\ o = (simulation.NewOperationMsg
                 (types.NewMsgDelegate (simulation.Address simAccount)
                    (types.GetOperator val)
                    (sdk.mkCoin (types.BondDenom (keeper.GetParams k ctx)) amount))
                 true "", [], None).
Proof.
  intros [r' H]. unfold SimulateMsgDelegate in H.
  run_all H; ended. facts.
  match goal with
  | Hin : In ?a accs, Hval : In ?v (keeper.GetAllValidators _ _),
    Hacc : types.GetAccount _ _ _ = Some ?acc,
    Hbal : sdk.AmountOf _ _ = Ok ?bal, Hamt : 1 <= ?amt <= ?bal,
    Hok : baseapp.IsOK (baseapp.Deliver _ (helpers.GenTx _ ?f _ _ _ _)) = true |- _ =>
      exists a, v, acc, bal, amt, f; repeat split; auto; lia
  end.
Qed.

Lemma undelegate_run ak k app ctx accs chainID r o :
  returns (SimulateMsgUndelegate ak k app ctx accs chainID) r o ->
  isNoOp o \/ isError o
  \/ exists validator delegation tokens unbondAmt key account fees,
       In validator (keeper.GetAllValidators k ctx)
       /\ In delegation
            (keeper.GetValidatorDelegations k ctx (types.OperatorAddress validator))
       /\ keeper.HasMaxUnbondingDelegationEntries k ctx
            (types.GetDelegatorAddr delegation) (types.GetOperator validator)
          = false
       /\ types.TokensFromShares validator (types.GetShares delegation) = Ok tokens
       /\ 1 <= unbondAmt <= sdk.Dec_TruncateInt tokens
       /\ simulation.PrivKey (rangeAccs accs (types.GetDelegatorAddr delegation))
          = Some key
       /\ types.GetAccount ak ctx (types.GetDelegatorAddr delegation) = Some account
       /\ baseapp.IsOK
            (baseapp.Deliver app
               (helpers.GenTx
                  [types.NewMsgUndelegate (types.GetDelegatorAddr delegation)
                     (types.GetOperator validator)
                     (sdk.mkCoin (keeper.BondDenom k ctx) unbondAmt)]
                  fees chainID [exported.GetAccountNumber account]
                  [exported.GetSequence account] (Some key)))
          = true
       /\ o = (simulation.NewOperationMsg
                 (types.NewMsgUndelegate (types.GetDelegatorAddr delegation)
                    (types.GetOperator validator)
                    (sdk.mkCoin (keeper.BondDenom k ctx) unbondAmt))
                 true "", [], None).
Proof.
  intros [r' H]. unfold SimulateMsgUndelegate in H.
  run_all H; ended. facts.
  match goal with
  | Hval : In ?v (keeper.GetAllValidators _ _),
    Hdel : In ?d (keeper.GetValidatorDelegations _ _ _),
    Htok : types.TokensFromShares _ _ = Ok ?t, Hamt : 1 <= ?amt <= _,
    Hkey : simulation.PrivKey _ = Some ?key,
    Hacc : types.GetAccount _ _ _ = Some ?acc,
    Hok : baseapp.IsOK (baseapp.Deliver _ (helpers.GenTx _ ?f _ _ _ _)) = true |- _ =>
      exists v, d, t, amt, key, acc, f; repeat split; auto; lia
  end.
Qed.

Lemma redelegate_run ak k app ctx accs chainID r o :
  returns (SimulateMsgBeginRedelegate ak k app ctx accs chainID) r o ->
  isNoOp o \/ isError o
  \/ exists srcVal destVal delegation tokens redAmt key account fees,
       In srcVal (keeper.GetAllValidators k ctx)
       /\ In destVal (keeper.GetAllValidators k ctx)
       /\ In delegation
            (keeper.GetValidatorDelegations k ctx (types.GetOperator srcVal))
       /\ keeper.HasReceivingRedelegation k ctx
            (types.GetDelegatorAddr delegation) (types.GetOperator srcVal) = false
       /\ sdk.Equals (types.GetOperator srcVal) (types.GetOperator destVal)
          || types.InvalidExRate destVal
          || keeper.HasMaxRedelegationEntries k ctx
               (types.GetDelegatorAddr delegation) (types.GetOperator srcVal)
               (types.GetOperator destVal) = false
       /\ types.TokensFromShares srcVal (types.GetShares delegation) = Ok tokens
       /\ 1 <= redAmt <= sdk.Dec_TruncateInt tokens
       /\ simulation.PrivKey (rangeAccs accs (types.GetDelegatorAddr delegation))
          = Some key
       /\ types.GetAccount ak ctx (types.GetDelegatorAddr delegation) = Some account
       /\ baseapp.IsOK
            (baseapp.Deliver app
               (helpers.GenTx
                  [types.NewMsgBeginRedelegate (types.GetDelegatorAddr delegation)
                     (types.GetOperator srcVal) (types.GetOperator destVal)
                     (sdk.mkCoin (keeper.BondDenom k ctx) redAmt)]
                  fees chainID [exported.GetAccountNumber account]
                  [exported.GetSequence account] (Some key)))
          = true
       /\ o = (simulation.NewOperationMsg
                 (types.NewMsgBeginRedelegate (types.GetDelegatorAddr delegation)
                    (types.GetOperator srcVal) (types.GetOperator destVal)
                    (sdk.mkCoin (keeper.BondDenom k ctx) redAmt))
                 true "", [], None).
Proof.
  intros [r' H]. unfold SimulateMsgBeginRedelegate in H.
  run_all H; ended. facts.
  match goal with
  | Htok : types.TokensFromShares ?v (types.GetShares ?d) = Ok ?t,
    Hguard : sdk.Equals (types.GetOperator ?v) (types.GetOperator ?v0) || _ || _
             = false,
    Hamt : 1 <= ?amt <= sdk.Dec_TruncateInt ?t,
    Hkey : simulation.PrivKey _ = Some ?key,
    Hacc : types.GetAccount _ _ _ = Some ?acc,
    Hok : baseapp.IsOK (baseapp.Deliver _ (helpers.GenTx _ ?f _ _ _ _)) = true |- _ =>
      exists v, v0, d, t, amt, key, acc, f; repeat split; auto; lia
  end.
Qed.

(** ** The shape of the outcomes *)

(** X1. Whatever the state and the random source, a generator that returns
    gives NoOp, an Error, or a Success whose message is of the generator's
    own kind; a message never comes with an error, and no future operation
    is ever scheduled. *)
Theorem outcome_shape :
  forall ak k app ctx accs chainID r o,
    (returns (SimulateMsgCreateValidator ak k app ctx accs chainID) r o ->
     isNoOp o \/ isError o \/ exists m, isSuccess o (types.CreateValidator m))
    /\ (returns (SimulateMsgEditValidator ak k app ctx accs chainID) r o ->
        isNoOp o \/ isError o \/ exists m, isSuccess o (types.EditValidator m))
    /\ (returns (SimulateMsgDelegate ak k app ctx accs chainID) r o ->
        isNoOp o \/ isError o \/ exists m, isSuccess o (types.Delegate m))
    /\ (returns (SimulateMsgUndelegate ak k app ctx accs chainID) r o ->
        isNoOp o \/ isError o \/ exists m, isSuccess o (types.Undelegate m))
    /\ (returns (SimulateMsgBeginRedelegate ak k app ctx accs chainID) r o ->
        isNoOp o \/ isError o
        \/ exists m, isSuccess o (types.BeginRedelegate m)).
Proof.
  intros ak k app ctx accs chainID r o. repeat split; intros Hrun.
  - destruct (create_validator_run _ _ _ _ _ _ _ _ Hrun) as [H|[H|H]]; auto.
    destruct H as (a & acc & bal & amt & d & c & f & _ & _ & _ & _ & _ & _ & ->).
    right; right. eexists. reflexivity.
  - destruct (edit_validator_run _ _ _ _ _ _ _ _ Hrun) as [H|[H|H]]; auto.
    destruct H as (v & nr & a & acc & d & f & _ & _ & _ & _ & _ & _ & ->).
    right; right. eexists. reflexivity.
  - destruct (delegate_run _ _ _ _ _ _ _ _ Hrun) as [H|[H|H]]; auto.
    destruct H as (a & v & acc & bal & amt & f & _ & _ & _ & _ & _ & _ & _ & ->).
    right; right. eexists. reflexivity.
  - destruct (undelegate_run _ _ _ _ _ _ _ _ Hrun) as [H|[H|H]]; auto.
    destruct H as (v & d & t & amt & key & acc & f
                   & _ & _ & _ & _ & _ & _ & _ & _ & ->).
    right; right. eexists. reflexivity.
  - destruct (redelegate_run _ _ _ _ _ _ _ _ Hrun) as [H|[H|H]]; auto.
    destruct H as (v & v0 & d & t & amt & key & acc & f
                   & _ & _ & _ & _ & _ & _ & _ & _ & _ & _ & ->).
    right; right. eexists. reflexivity.
Qed.

(** X2. A generator reports Success only for a transaction the application
    accepted: the transaction holds the reported message and nothing else,
    and carries the chain identifier the generator was given. *)
Theorem success_after_delivery :
  forall ak k app ctx accs chainID r o msg,
    isSuccess o msg ->
    returns (SimulateMsgCreateValidator ak k app ctx accs chainID) r o
    \/ returns (SimulateMsgEditValidator ak k app ctx accs chainID) r o
    \/ returns (SimulateMsgDelegate ak k app ctx accs chainID) r o
    \/ returns (SimulateMsgUndelegate ak k app ctx accs chainID) r o
    \/ returns (SimulateMsgBeginRedelegate ak k app ctx accs chainID) r o ->
    exists tx,
      helpers.Msgs tx = [msg]
      /\ helpers.ChainID tx = chainID
      /\ baseapp.IsOK (baseapp.Deliver app tx) = true.
Proof.
  intros ak k app ctx accs chainID r o msg Hs [Hrun|[Hrun|[Hrun|[Hrun|Hrun]]]].
  - destruct (create_validator_run _ _ _ _ _ _ _ _ Hrun) as [H|[H|H]].
    + rewrite H in Hs. exfalso. eapply not_success_noop; eauto.
    + destruct H as [e ->]. exfalso. eapply not_success_noop; eauto.
    + destruct H as (a & acc & bal & amt & d & c & f
                     & _ & _ & _ & _ & _ & Hok & ->).
      apply success_msg in Hs. subst msg.
      eexists. split; [|split]; [| |exact Hok]; reflexivity.
  - destruct (edit_validator_run _ _ _ _ _ _ _ _ Hrun) as [H|[H|H]].
    + rewrite H in Hs. exfalso. eapply not_success_noop; eauto.
    + destruct H as [e ->]. exfalso. eapply not_success_noop; eauto.
    + destruct H as (v & nr & a & acc & d & f & _ & _ & _ & _ & _ & Hok & ->).
      apply success_msg in Hs. subst msg.
      eexists. split; [|split]; [| |exact Hok]; reflexivity.
  - destruct (delegate_run _ _ _ _ _ _ _ _ Hrun) as [H|[H|H]].
    + rewrite H in Hs. exfalso. eapply not_success_noop; eauto.
    + destruct H as [e ->]. exfalso. eapply not_success_noop; eauto.
    + destruct H as (a & v & acc & bal & amt & f
                     & _ & _ & _ & _ & _ & _ & Hok & ->).
      apply success_msg in Hs. subst msg.
      eexists. split; [|split]; [| |exact Hok]; reflexivity.
  - destruct (undelegate_run _ _ _ _ _ _ _ _ Hrun) as [H|[H|H]].
    + rewrite H in Hs. exfalso. eapply not_success_noop; eauto.
    + destruct H as [e ->]. exfalso. eapply not_success_noop; eauto.
    + destruct H as (v & d & t & amt & key & acc & f
                     & _ & _ & _ & _ & _ & _ & _ & Hok & ->).
      apply success_msg in Hs. subst msg.
      eexists. split; [|split]; [| |exact Hok]; reflexivity.
  - destruct (redelegate_run _ _ _ _ _ _ _ _ Hrun) as [H|[H|H]].
    + rewrite H in Hs. exfalso. eapply not_success_noop; eauto.
    + destruct H as [e ->]. exfalso. eapply not_success_noop; eauto.
    + destruct H as (v & v0 & d & t & amt & key & acc & f
                     & _ & _ & _ & _ & _ & _ & _ & _ & _ & Hok & ->).
      apply success_msg in Hs. subst msg.
      eexists. split; [|split]; [| |exact Hok]; reflexivity.
Qed.

Lemma success_after_delivery_witness :
  exists o msg tx,
    returns (SimulateMsgDelegate (memstore.AccountKeeper scenario.chain)
               (memstore.Keeper scenario.chain) memstore.accepting scenario.ctx
               [scenario.alice] "chain") [0; 1; 4] o
    /\ isSuccess o msg
    /\ helpers.Msgs tx = [msg]
    /\ helpers.ChainID tx = "chain"
    /\ baseapp.IsOK (baseapp.Deliver memstore.accepting tx) = true.
Proof.
  assert (Hrun : exists m,
             returns (SimulateMsgDelegate (memstore.AccountKeeper scenario.chain)
                        (memstore.Keeper scenario.chain) memstore.accepting
                        scenario.ctx [scenario.alice] "chain") [0; 1; 4]
               (simulation.NewOperationMsg (types.Delegate m) true "", [], None)).
  { eexists. eexists. cbv. reflexivity. }
  destruct Hrun as [m Hrun].
  destruct (success_after_delivery _ _ _ _ _ _ _ _ (types.Delegate m) eq_refl
              (or_intror (or_intror (or_introl Hrun)))) as (tx & H1 & H2 & H3).
  exists (simulation.NewOperationMsg (types.Delegate m) true "", [], None),
    (types.Delegate m), tx.
  repeat split; assumption.
Defined.

(** ** Create-validator: the operator is new *)

(** X3. A successful SimulateMsgCreateValidator names as validator and as
    delegator the address of one simulation account, carries that account's
    public key and a minimal self delegation of one, and no validator was
    registered at that address when the generator ran. *)
Theorem create_validator_new_operator :
  forall ak k app ctx accs chainID r o m,
    returns (SimulateMsgCreateValidator ak k app ctx accs chainID) r o ->
    isSuccess o (types.CreateValidator m) ->
    exists simAccount,
      In simAccount accs
      /\ types.cv_ValidatorAddress m
         = sdk.ValAddress_of (simulation.Address simAccount)
      /\ types.cv_DelegatorAddress m = simulation.Address simAccount
      /\ types.cv_PubKey m = simulation.PubKey simAccount
      /\ types.cv_MinSelfDelegation m = 1
      /\ snd (keeper.GetValidator k ctx (types.cv_ValidatorAddress m)) = false.
Proof.
  intros ak k app ctx accs chainID r o m Hrun Hs.
  destruct (create_validator_run _ _ _ _ _ _ _ _ Hrun) as [H|[H|H]].
  - rewrite H in Hs. exfalso. eapply not_success_noop; eauto.
  - destruct H as [e ->]. exfalso. eapply not_success_noop; eauto.
  - destruct H as (a & acc & bal & amt & d & c & f
                   & Hin & Hnew & _ & _ & _ & _ & ->).
    apply success_msg in Hs. inversion Hs; subst m. simpl.
    exists a. repeat split; auto.
Qed.

Lemma create_validator_new_operator_witness :
  exists o m simAccount,
    returns (SimulateMsgCreateValidator (memstore.AccountKeeper scenario.chain)
               (memstore.Keeper scenario.chain) memstore.accepting scenario.ctx
               [scenario.alice] "chain") [0; 4] o
    /\ isSuccess o (types.CreateValidator m)
    /\ In simAccount [scenario.alice]
    /\ types.cv_ValidatorAddress m
       = sdk.ValAddress_of (simulation.Address simAccount)
    /\ types.cv_DelegatorAddress m = simulation.Address simAccount
    /\ types.cv_PubKey m = simulation.PubKey simAccount
    /\ types.cv_MinSelfDelegation m = 1
    /\ snd (keeper.GetValidator (memstore.Keeper scenario.chain) scenario.ctx
              (types.cv_ValidatorAddress m)) = false.
Proof.
  assert (Hrun : exists m,
             returns (SimulateMsgCreateValidator
                        (memstore.AccountKeeper scenario.chain)
                        (memstore.Keeper scenario.chain) memstore.accepting
                        scenario.ctx [scenario.alice] "chain") [0; 4]
               (simulation.NewOperationMsg (types.CreateValidator m) true "",
                [], None)).
  { eexists. eexists. cbv. reflexivity. }
  destruct Hrun as [m Hrun].
  destruct (create_validator_new_operator _ _ _ _ _ _ _ _ m Hrun eq_refl)
    as (simAccount & H).
  exists (simulation.NewOperationMsg (types.CreateValidator m) true "", [], None),
    m, simAccount.
  split; [exact Hrun|]. split; [reflexivity|exact H].
Defined.

(** X4. SimulateMsgCreateValidator skips, having drawn nothing but the
    account, when a validator is already registered at the address of the
    drawn account, and when the account holds no positive balance in the
    bonding denomination. *)
Theorem create_validator_skips :
  forall ak k app ctx accs chainID r simAccount idx r1,
    simulation.RandomAcc accs r = Ok ((simAccount, idx), r1) ->
    (snd (keeper.GetValidator k ctx
            (sdk.ValAddress_of (simulation.Address simAccount))) = true ->
     SimulateMsgCreateValidator ak k app ctx accs chainID r
     = Ok ((simulation.NoOpMsg types.ModuleName, [], None), r1))
    /\ (forall account balance,
           snd (keeper.GetValidator k ctx
                  (sdk.ValAddress_of (simulation.Address simAccount))) = false ->
           types.GetAccount ak ctx (simulation.Address simAccount)
           = Some account ->
           sdk.AmountOf (exported.GetCoins account)
             (types.BondDenom (keeper.GetParams k ctx)) = Ok balance ->
           balance <= 0 ->
           SimulateMsgCreateValidator ak k app ctx accs chainID r
           = Ok ((simulation.NoOpMsg types.ModuleName, [], None), r1)).
Proof.
  intros ak k app ctx accs chainID r simAccount idx r1 Hacc. split.
  - intros Hfound. unfold SimulateMsgCreateValidator. forward Hacc.
    destruct (keeper.GetValidator k ctx _) as [v found]. simpl in Hfound.
    subst found. reflexivity.
  - intros account balance Hfound Haccount Hbal Hle.
    unfold SimulateMsgCreateValidator. forward Hacc.
    destruct (keeper.GetValidator k ctx _) as [v found]. simpl in Hfound.
    subst found. rewrite Haccount. cbn [deref].
    forward_lift (eq_refl (Ok account)). forward_lift Hbal.
    rewrite (not_positive _ Hle). reflexivity.
Qed.

Lemma create_validator_skips_witness :
  SimulateMsgCreateValidator
    cases.noAccounts (memstore.Keeper scenario.chain) memstore.accepting
    scenario.ctx [cases.operator1] "chain" [0; 4]
  = Ok ((simulation.NoOpMsg types.ModuleName, [], None), [4]).
Proof.
  exact (proj1 (create_validator_skips cases.noAccounts
                  (memstore.Keeper scenario.chain) memstore.accepting
                  scenario.ctx [cases.operator1] "chain" [0; 4]
                  cases.operator1 0 [4] eq_refl) eq_refl).
Defined.

(** ** Edit-validator: the new rate and the signer *)

Lemma ValidateNewRate_None c newRate blockTime :
  types.ValidateNewRate c newRate blockTime = None ->
  24 * types.Hour <= blockTime - types.UpdateTime c
  /\ 0 <= sdk.DecInt newRate <= sdk.DecInt (types.MaxRate (types.Rates c))
  /\ sdk.DecInt newRate - sdk.DecInt (types.Rate (types.Rates c))
     <= sdk.DecInt (types.MaxChangeRate (types.Rates c)).
Proof.
  unfold types.ValidateNewRate, sdk.Dec_IsNegative, sdk.Dec_GT, sdk.Dec_Sub.
  cbn [sdk.DecInt].
  destruct (Z.ltb_spec (blockTime - types.UpdateTime c) (24 * types.Hour));
    [discriminate|].
  destruct (Z.ltb_spec (sdk.DecInt newRate) 0); [discriminate|].
  destruct (Z.ltb_spec (sdk.DecInt (types.MaxRate (types.Rates c)))
              (sdk.DecInt newRate)); [discriminate|].
  destruct (Z.ltb_spec (sdk.DecInt (types.MaxChangeRate (types.Rates c)))
              (sdk.DecInt newRate - sdk.DecInt (types.Rate (types.Rates c))));
    [discriminate|].
  intros _. lia.
Qed.

(** X5. A successful SimulateMsgEditValidator edits an existing validator:
    the new commission rate passed that validator's commission-change rule at
    the block time, so it lies between zero and the validator's own maximal
    rate; the minimal self delegation is left untouched; and the operator of
    the validator is the address of a simulation account. *)
Theorem edit_validator_rate_valid :
  forall ak k app ctx accs chainID r o m,
    returns (SimulateMsgEditValidator ak k app ctx accs chainID) r o ->
    isSuccess o (types.EditValidator m) ->
    exists val newRate simAccount,
      In val (keeper.GetAllValidators k ctx)
      /\ types.ev_ValidatorAddress m = types.GetOperator val
      /\ types.ev_CommissionRate m = Some newRate
      /\ types.ev_MinSelfDelegation m = None
      /\ types.ValidateNewRate (types.Commission_ val) newRate
           (sdk.BlockHeader_Time ctx) = None
      /\ 0 <= sdk.DecInt newRate
         <= sdk.DecInt (types.MaxRate (types.Rates (types.Commission_ val)))
      /\ In simAccount accs
      /\ simulation.Address simAccount
         = sdk.AccAddress_of (types.GetOperator val).
Proof.
  intros ak k app ctx accs chainID r o m Hrun Hs.
  destruct (edit_validator_run _ _ _ _ _ _ _ _ Hrun) as [H|[H|H]].
  - rewrite H in Hs. exfalso. eapply not_success_noop; eauto.
  - destruct H as [e ->]. exfalso. eapply not_success_noop; eauto.
  - destruct H as (v & nr & a & acc & d & f
                   & Hval & Hrate & Hin & Haddr & _ & _ & ->).
    apply success_msg in Hs. inversion Hs; subst m. simpl.
    exists v, nr, a. repeat split; auto;
      apply (ValidateNewRate_None _ _ _ Hrate).
Qed.

Lemma edit_validator_rate_valid_witness :
  exists o m val newRate,
    returns (SimulateMsgEditValidator (memstore.AccountKeeper cases.operated)
               (memstore.Keeper cases.operated) memstore.accepting scenario.ctx
               cases.withOperator "chain") [0; 2; 105000000000000000] o
    /\ isSuccess o (types.EditValidator m)
    /\ types.ev_CommissionRate m = Some newRate
    /\ 0 <= sdk.DecInt newRate
       <= sdk.DecInt (types.MaxRate (types.Rates (types.Commission_ val))).
Proof.
  assert (Hrun : exists m,
             returns (SimulateMsgEditValidator
                        (memstore.AccountKeeper cases.operated)
                        (memstore.Keeper cases.operated) memstore.accepting
                        scenario.ctx
                        cases.withOperator "chain") [0; 2; 105000000000000000]
               (simulation.NewOperationMsg (types.EditValidator m) true "",
                [], None)).
  { eexists. eexists. cbv. reflexivity. }
  destruct Hrun as [m Hrun].
  destruct (edit_validator_rate_valid _ _ _ _ _ _ _ _ m Hrun eq_refl)
    as (val & newRate & simAccount & _ & _ & Hrate & _ & _ & Hbound & _).
  exists (simulation.NewOperationMsg (types.EditValidator m) true "", [], None),
    m, val, newRate.
  split; [exact Hrun|]. split; [reflexivity|]. split; assumption.
Defined.

(** ** Edit-validator: a refused rate *)

(** X6. SimulateMsgEditValidator skips, with a nil error and before any
    account is looked up, whenever the drawn commission rate fails the
    commission-change rule of the drawn validator. *)
Theorem edit_validator_skips_refused_rate :
  forall ak k app ctx accs chainID r val r1 newRate r2 e,
    keeper.RandomValidator k ctx r = Ok ((val, true), r1) ->
    simulation.RandomDecAmount
      (types.MaxRate (types.Rates (types.Commission_ val))) r1
    = Ok (newRate, r2) ->
    types.ValidateNewRate (types.Commission_ val) newRate
      (sdk.BlockHeader_Time ctx) = Some e ->
    SimulateMsgEditValidator ak k app ctx accs chainID r
    = Ok ((simulation.NoOpMsg types.ModuleName, [], None), r2).
Proof.
  intros ak k app ctx accs chainID r val r1 newRate r2 e Hval Hrate Hrule.
  unfold SimulateMsgEditValidator.
  rewrite (len_nonempty val) by (eapply RandomValidator_In; eauto).
  forward Hval. cbn [negb]. forward Hrate. rewrite Hrule. reflexivity.
Qed.

Lemma edit_validator_skips_refused_rate_witness :
  SimulateMsgEditValidator (memstore.AccountKeeper cases.operated)
    (memstore.Keeper cases.operated) memstore.accepting scenario.ctx
    cases.withOperator "chain" [0; 1; 7]
  = Ok ((simulation.NoOpMsg types.ModuleName, [], None), [7]).
Proof.
  exact (edit_validator_skips_refused_rate
           (memstore.AccountKeeper cases.operated)
           (memstore.Keeper cases.operated) memstore.accepting scenario.ctx
           cases.withOperator "chain" [0; 1; 7] scenario.val1 [1; 7]
           (sdk.mkDec (scenario.unit_ / 2)) [7]
           "commission cannot be changed more than max change rate"
           eq_refl eq_refl eq_refl).
Defined.

(** ** Delegate: the validator and the skips *)

(** X7. A successful SimulateMsgDelegate delegates from the address of a
    simulation account to an existing validator whose exchange rate is
    valid. *)
Theorem delegate_to_valid_validator :
  forall ak k app ctx accs chainID r o m,
    returns (SimulateMsgDelegate ak k app ctx accs chainID) r o ->
    isSuccess o (types.Delegate m) ->
    exists val simAccount,
      In val (keeper.GetAllValidators k ctx)
      /\ types.d_ValidatorAddress m = types.GetOperator val
      /\ types.InvalidExRate val = false
      /\ In simAccount accs
      /\ types.d_DelegatorAddress m = simulation.Address simAccount.
Proof.
  intros ak k app ctx accs chainID r o m Hrun Hs.
  destruct (delegate_run _ _ _ _ _ _ _ _ Hrun) as [H|[H|H]].
  - rewrite H in Hs. exfalso. eapply not_success_noop; eauto.
  - destruct H as [e ->]. exfalso. eapply not_success_noop; eauto.
  - destruct H as (a & v & acc & bal & amt & f
                   & Hin & Hval & Hrate & _ & _ & _ & _ & ->).
    apply success_msg in Hs. inversion Hs; subst m. simpl.
    exists v, a. repeat split; auto.
Qed.

Lemma delegate_to_valid_validator_witness :
  exists o m val simAccount,
    returns (SimulateMsgDelegate (memstore.AccountKeeper scenario.chain)
               (memstore.Keeper scenario.chain) memstore.accepting scenario.ctx
               [scenario.alice] "chain") [0; 1; 4] o
    /\ isSuccess o (types.Delegate m)
    /\ In val (keeper.GetAllValidators (memstore.Keeper scenario.chain)
                 scenario.ctx)
    /\ types.d_ValidatorAddress m = types.GetOperator val
    /\ types.InvalidExRate val = false
    /\ In simAccount [scenario.alice]
    /\ types.d_DelegatorAddress m = simulation.Address simAccount.
Proof.
  assert (Hrun : exists m,
             returns (SimulateMsgDelegate (memstore.AccountKeeper scenario.chain)
                        (memstore.Keeper scenario.chain) memstore.accepting
                        scenario.ctx [scenario.alice] "chain") [0; 1; 4]
               (simulation.NewOperationMsg (types.Delegate m) true "", [], None)).
  { eexists. eexists. cbv. reflexivity. }
  destruct Hrun as [m Hrun].
  destruct (delegate_to_valid_validator _ _ _ _ _ _ _ _ m Hrun eq_refl)
    as (val & simAccount & H).
  exists (simulation.NewOperationMsg (types.Delegate m) true "", [], None),
    m, val, simAccount.
  split; [exact Hrun|]. split; [reflexivity|exact H].
Defined.

(** X8. SimulateMsgDelegate skips, having drawn the account and the validator
    only, when the drawn validator has an invalid exchange rate, and when the
    drawn account holds no positive balance in the bonding denomination. *)
Theorem delegate_skips :
  forall ak k app ctx accs chainID r simAccount idx r1 val r2,
    simulation.RandomAcc accs r = Ok ((simAccount, idx), r1) ->
    keeper.RandomValidator k ctx r1 = Ok ((val, true), r2) ->
    (types.InvalidExRate val = true ->
     SimulateMsgDelegate ak k app ctx accs chainID r
     = Ok ((simulation.NoOpMsg types.ModuleName, [], None), r2))
    /\ (forall account balance,
           types.InvalidExRate val = false ->
           types.GetAccount ak ctx (simulation.Address simAccount)
           = Some account ->
           sdk.AmountOf (exported.GetCoins account)
             (types.BondDenom (keeper.GetParams k ctx)) = Ok balance ->
           balance <= 0 ->
           SimulateMsgDelegate ak k app ctx accs chainID r
           = Ok ((simulation.NoOpMsg types.ModuleName, [], None), r2)).
Proof.
  intros ak k app ctx accs chainID r simAccount idx r1 val r2 Hacc Hval.
  assert (Hlen : (len (keeper.GetAllValidators k ctx) =? 0) = false)
    by (eapply len_nonempty, RandomValidator_In; eauto).
  split.
  - intros Hrate. unfold SimulateMsgDelegate. rewrite Hlen.
    forward Hacc. forward Hval. cbn [negb]. rewrite Hrate. reflexivity.
  - intros account balance Hrate Haccount Hbal Hle.
    unfold SimulateMsgDelegate. rewrite Hlen.
    forward Hacc. forward Hval. cbn [negb]. rewrite Hrate.
    rewrite Haccount. cbn [deref].
    forward_lift (eq_refl (Ok account)). forward_lift Hbal.
    rewrite (not_positive _ Hle). reflexivity.
Qed.

Lemma delegate_skips_witness :
  types.InvalidExRate cases.drained = true
  /\ SimulateMsgDelegate (memstore.AccountKeeper cases.withDrained)
       (memstore.Keeper cases.withDrained) memstore.accepting scenario.ctx
       [scenario.alice] "chain" [0; 0; 4]
     = Ok ((simulation.NoOpMsg types.ModuleName, [], None), [4]).
Proof.
  split; [reflexivity|].
  exact (proj1 (delegate_skips (memstore.AccountKeeper cases.withDrained)
                  (memstore.Keeper cases.withDrained) memstore.accepting
                  scenario.ctx [scenario.alice] "chain" [0; 0; 4]
                  scenario.alice 0 [0; 4] cases.drained [4] eq_refl eq_refl)
           eq_refl).
Defined.

(** ** Who signs *)

(** X9. The transaction behind a successful SimulateMsgUndelegate or
    SimulateMsgBeginRedelegate is signed with the private key, not nil, of a
    simulation account whose address is the delegator address of the message;
    the account number and sequence are those of the delegator's account. *)
Theorem signed_by_the_delegator :
  forall ak k app ctx accs chainID r o,
    (forall m,
        returns (SimulateMsgUndelegate ak k app ctx accs chainID) r o ->
        isSuccess o (types.Undelegate m) ->
        exists simAccount key account tx,
          In simAccount accs
          /\ simulation.Address simAccount = types.u_DelegatorAddress m
          /\ simulation.PrivKey simAccount = Some key
          /\ types.GetAccount ak ctx (types.u_DelegatorAddress m) = Some account
          /\ helpers.Msgs tx = [types.Undelegate m]
          /\ helpers.Priv tx = Some key
          /\ helpers.AccNums tx = [exported.GetAccountNumber account]
          /\ helpers.Seqs tx = [exported.GetSequence account]
          /\ baseapp.IsOK (baseapp.Deliver app tx) = true)
    /\ (forall m,
           returns (SimulateMsgBeginRedelegate ak k app ctx accs chainID) r o ->
           isSuccess o (types.BeginRedelegate m) ->
           exists simAccount key account tx,
             In simAccount accs
             /\ simulation.Address simAccount = types.r_DelegatorAddress m
             /\ simulation.PrivKey simAccount = Some key
             /\ types.GetAccount ak ctx (types.r_DelegatorAddress m)
                = Some account
             /\ helpers.Msgs tx = [types.BeginRedelegate m]
             /\ helpers.Priv tx = Some key
             /\ helpers.AccNums tx = [exported.GetAccountNumber account]
             /\ helpers.Seqs tx = [exported.GetSequence account]
             /\ baseapp.IsOK (baseapp.Deliver app tx) = true).
Proof.
  intros ak k app ctx accs chainID r o. split; intros m Hrun Hs.
  - destruct (undelegate_run _ _ _ _ _ _ _ _ Hrun) as [H|[H|H]].
    + rewrite H in Hs. exfalso. eapply not_success_noop; eauto.
    + destruct H as [e ->]. exfalso. eapply not_success_noop; eauto.
    + destruct H as (v & d & t & amt & key & acc & f
                     & _ & _ & _ & _ & _ & Hkey & Hacc & Hok & ->).
      apply success_msg in Hs. inversion Hs; subst m. simpl.
      destruct (rangeAccs_key _ _ _ Hkey) as [Hin Haddr].
      exists (rangeAccs accs (types.GetDelegatorAddr d)), key, acc.
      eexists. repeat split; [exact Hin|exact Haddr|exact Hkey|exact Hacc
                              | | | | |exact Hok]; reflexivity.
  - destruct (redelegate_run _ _ _ _ _ _ _ _ Hrun) as [H|[H|H]].
    + rewrite H in Hs. exfalso. eapply not_success_noop; eauto.
    + destruct H as [e ->]. exfalso. eapply not_success_noop; eauto.
    + destruct H as (v & v0 & d & t & amt & key & acc & f
                     & _ & _ & _ & _ & _ & _ & _ & Hkey & Hacc & Hok & ->).
      apply success_msg in Hs. inversion Hs; subst m. simpl.
      destruct (rangeAccs_key _ _ _ Hkey) as [Hin Haddr].
      exists (rangeAccs accs (types.GetDelegatorAddr d)), key, acc.
      eexists. repeat split; [exact Hin|exact Haddr|exact Hkey|exact Hacc
                              | | | | |exact Hok]; reflexivity.
Qed.

Lemma signed_by_the_delegator_witness :
  exists o m simAccount key account tx,
    returns (SimulateMsgUndelegate (memstore.AccountKeeper scenario.single)
               (memstore.Keeper scenario.single) memstore.accepting scenario.ctx
               [scenario.alice] "chain") [0; 0; 2] o
    /\ isSuccess o (types.Undelegate m)
    /\ In simAccount [scenario.alice]
    /\ simulation.Address simAccount = types.u_DelegatorAddress m
    /\ simulation.PrivKey simAccount = Some key
    /\ types.GetAccount (memstore.AccountKeeper scenario.single) scenario.ctx
         (types.u_DelegatorAddress m) = Some account
    /\ helpers.Msgs tx = [types.Undelegate m]
    /\ helpers.Priv tx = Some key
    /\ helpers.AccNums tx = [exported.GetAccountNumber account]
    /\ helpers.Seqs tx = [exported.GetSequence account]
    /\ baseapp.IsOK (baseapp.Deliver memstore.accepting tx) = true.
Proof.
  assert (Hrun : exists m,
             returns (SimulateMsgUndelegate
                        (memstore.AccountKeeper scenario.single)
                        (memstore.Keeper scenario.single) memstore.accepting
                        scenario.ctx [scenario.alice] "chain") [0; 0; 2]
               (simulation.NewOperationMsg (types.Undelegate m) true "",
                [], None)).
  { eexists. eexists. cbv. reflexivity. }
  destruct Hrun as [m Hrun].
  destruct (proj1 (signed_by_the_delegator _ _ _ _ _ _ _ _) m Hrun eq_refl)
    as (simAccount & key & account & tx & H).
  exists (simulation.NewOperationMsg (types.Undelegate m) true "", [], None),
    m, simAccount, key, account, tx.
  split; [exact Hrun|]. split; [reflexivity|exact H].
Defined.

(** ** Entry caps and the other guards *)

(** X10. SimulateMsgUndelegate skips when the delegator of the selected
    delegation is at the cap of unbonding entries against the validator, and
    a successful run is for a delegation of an existing validator whose
    delegator is not at that cap. *)
Theorem undelegate_entry_cap :
  forall ak k app ctx accs chainID r,
    (forall validator r1 i r2 delegation,
        keeper.RandomValidator k ctx r = Ok ((validator, true), r1) ->
        Intn (len (keeper.GetValidatorDelegations k ctx
                     (types.OperatorAddress validator))) r1 = Ok (i, r2) ->
        index (keeper.GetValidatorDelegations k ctx
                 (types.OperatorAddress validator)) i = Ok delegation ->
        keeper.HasMaxUnbondingDelegationEntries k ctx
          (types.GetDelegatorAddr delegation) (types.GetOperator validator)
        = true ->
        SimulateMsgUndelegate ak k app ctx accs chainID r
        = Ok ((simulation.NoOpMsg types.ModuleName, [], None), r2))
    /\ (forall o m,
           returns (SimulateMsgUndelegate ak k app ctx accs chainID) r o ->
           isSuccess o (types.Undelegate m) ->
           keeper.HasMaxUnbondingDelegationEntries k ctx
             (types.u_DelegatorAddress m) (types.u_ValidatorAddress m) = false
           /\ sdk.Denom (types.u_Amount m) = keeper.BondDenom k ctx
           /\ exists validator delegation,
                In validator (keeper.GetAllValidators k ctx)
                /\ In delegation
                     (keeper.GetValidatorDelegations k ctx
                        (types.OperatorAddress validator))
                /\ types.u_ValidatorAddress m = types.GetOperator validator
                /\ types.u_DelegatorAddress m
                   = types.GetDelegatorAddr delegation).
Proof.
  intros ak k app ctx accs chainID r. split.
  - intros validator r1 i r2 delegation Hval Hi Hdel Hcap.
    unfold SimulateMsgUndelegate.
    forward Hval. cbn [negb]. forward Hi. forward_lift Hdel.
    rewrite Hcap. reflexivity.
  - intros o m Hrun Hs.
    destruct (undelegate_run _ _ _ _ _ _ _ _ Hrun) as [H|[H|H]].
    + rewrite H in Hs. exfalso. eapply not_success_noop; eauto.
    + destruct H as [e ->]. exfalso. eapply not_success_noop; eauto.
    + destruct H as (v & d & t & amt & key & acc & f
                     & Hval & Hdel & Hcap & _ & _ & _ & _ & _ & ->).
      apply success_msg in Hs. inversion Hs; subst m. simpl.
      repeat split; auto. exists v, d. repeat split; auto.
Qed.

Lemma undelegate_entry_cap_witness :
  SimulateMsgUndelegate (memstore.AccountKeeper scenario.capped)
    (memstore.Keeper scenario.capped) memstore.accepting scenario.ctx
    [scenario.alice] "chain" [0; 0; 3]
  = Ok ((simulation.NoOpMsg types.ModuleName, [], None), [3]).
Proof.
  exact (proj1 (undelegate_entry_cap (memstore.AccountKeeper scenario.capped)
                  (memstore.Keeper scenario.capped) memstore.accepting
                  scenario.ctx [scenario.alice] "chain" [0; 0; 3])
           scenario.val1 [0; 3] 0 [3] scenario.carolOnVal1
           eq_refl eq_refl eq_refl eq_refl).
Defined.

(** X11. SimulateMsgBeginRedelegate skips when the delegator has a
    redelegation coming into the source validator, and when the destination
    drawn is the source, has an invalid exchange rate, or the triple is at
    the cap of redelegation entries; a successful run is clear of all four
    (no incoming redelegation, source and destination distinct, destination
    rate valid, triple below the cap), between two existing validators. *)
Theorem redelegate_guards :
  forall ak k app ctx accs chainID r,
    (forall srcVal r1 i r2 delegation,
        keeper.RandomValidator k ctx r = Ok ((srcVal, true), r1) ->
        Intn (len (keeper.GetValidatorDelegations k ctx
                     (types.GetOperator srcVal))) r1 = Ok (i, r2) ->
        index (keeper.GetValidatorDelegations k ctx (types.GetOperator srcVal)) i
        = Ok delegation ->
        (keeper.HasReceivingRedelegation k ctx
           (types.GetDelegatorAddr delegation) (types.GetOperator srcVal)
         = true ->
         SimulateMsgBeginRedelegate ak k app ctx accs chainID r
         = Ok ((simulation.NoOpMsg types.ModuleName, [], None), r2))
        /\ (forall destVal r3,
               keeper.HasReceivingRedelegation k ctx
                 (types.GetDelegatorAddr delegation) (types.GetOperator srcVal)
               = false ->
               keeper.RandomValidator k ctx r2 = Ok ((destVal, true), r3) ->
               sdk.Equals (types.GetOperator srcVal) (types.GetOperator destVal)
               || types.InvalidExRate destVal
               || keeper.HasMaxRedelegationEntries k ctx
                    (types.GetDelegatorAddr delegation)
                    (types.GetOperator srcVal) (types.GetOperator destVal)
               = true ->
               SimulateMsgBeginRedelegate ak k app ctx accs chainID r
               = Ok ((simulation.NoOpMsg types.ModuleName, [], None), r3)))
    /\ (forall o m,
           returns (SimulateMsgBeginRedelegate ak k app ctx accs chainID) r o ->
           isSuccess o (types.BeginRedelegate m) ->
           keeper.HasReceivingRedelegation k ctx
             (types.r_DelegatorAddress m) (types.r_ValidatorSrcAddress m) = false
           /\ types.r_ValidatorSrcAddress m <> types.r_ValidatorDstAddress m
           /\ keeper.HasMaxRedelegationEntries k ctx
                (types.r_DelegatorAddress m) (types.r_ValidatorSrcAddress m)
                (types.r_ValidatorDstAddress m) = false
           /\ sdk.Denom (types.r_Amount m) = keeper.BondDenom k ctx
           /\ exists srcVal destVal delegation,
                In srcVal (keeper.GetAllValidators k ctx)
                /\ In destVal (keeper.GetAllValidators k ctx)
                /\ In delegation
                     (keeper.GetValidatorDelegations k ctx
                        (types.GetOperator srcVal))
                /\ types.r_ValidatorSrcAddress m = types.GetOperator srcVal
                /\ types.r_ValidatorDstAddress m = types.GetOperator destVal
                /\ types.r_DelegatorAddress m
                   = types.GetDelegatorAddr delegation
                /\ types.InvalidExRate destVal = false).
Proof.
  intros ak k app ctx accs chainID r. split.
  - intros srcVal r1 i r2 delegation Hsrc Hi Hdel. split.
    + intros Hrecv. unfold SimulateMsgBeginRedelegate.
      forward Hsrc. cbn [negb]. forward Hi. forward_lift Hdel.
      rewrite Hrecv. reflexivity.
    + intros destVal r3 Hrecv Hdest Hguard. unfold SimulateMsgBeginRedelegate.
      forward Hsrc. cbn [negb]. forward Hi. forward_lift Hdel.
      rewrite Hrecv. forward Hdest. cbn [negb]. rewrite Hguard. reflexivity.
  - intros o m Hrun Hs.
    destruct (redelegate_run _ _ _ _ _ _ _ _ Hrun) as [H|[H|H]].
    + rewrite H in Hs. exfalso. eapply not_success_noop; eauto.
    + destruct H as [e ->]. exfalso. eapply not_success_noop; eauto.
    + destruct H as (v & v0 & d & t & amt & key & acc & f
                     & Hsrc & Hdest & Hdel & Hrecv & Hguard
                     & _ & _ & _ & _ & _ & ->).
      apply success_msg in Hs. inversion Hs; subst m. simpl.
      apply orb_false_elim in Hguard. destruct Hguard as [Hguard Hmax].
      apply orb_false_elim in Hguard. destruct Hguard as [Hneq Hrate].
      unfold sdk.Equals in Hneq. apply String.eqb_neq in Hneq.
      split; [exact Hrecv|]. split; [exact Hneq|]. split; [exact Hmax|].
      split; [reflexivity|]. exists v, v0, d. repeat split; auto.
Qed.

Lemma redelegate_guards_witness :
  SimulateMsgBeginRedelegate (memstore.AccountKeeper scenario.chain)
    (memstore.Keeper scenario.chain) memstore.accepting scenario.ctx
    [scenario.alice] "chain" [0; 0; 0; 3]
  = Ok ((simulation.NoOpMsg types.ModuleName, [], None), [3])
  /\ exists o m,
       returns (SimulateMsgBeginRedelegate
                  (memstore.AccountKeeper scenario.chain)
                  (memstore.Keeper scenario.chain) memstore.accepting
                  scenario.ctx [scenario.alice] "chain") [0; 0; 1; 1] o
       /\ isSuccess o (types.BeginRedelegate m)
       /\ keeper.HasReceivingRedelegation (memstore.Keeper scenario.chain)
            scenario.ctx (types.r_DelegatorAddress m)
            (types.r_ValidatorSrcAddress m) = false
       /\ types.r_ValidatorSrcAddress m <> types.r_ValidatorDstAddress m
       /\ keeper.HasMaxRedelegationEntries (memstore.Keeper scenario.chain)
            scenario.ctx (types.r_DelegatorAddress m)
            (types.r_ValidatorSrcAddress m) (types.r_ValidatorDstAddress m)
          = false.
Proof.
  split.
  - exact (proj2 (proj1 (redelegate_guards
                           (memstore.AccountKeeper scenario.chain)
                           (memstore.Keeper scenario.chain) memstore.accepting
                           scenario.ctx [scenario.alice] "chain" [0; 0; 0; 3])
                    scenario.val1 [0; 0; 3] 0 [0; 3] scenario.aliceOnVal1
                    eq_refl eq_refl eq_refl)
             scenario.val1 [3] eq_refl eq_refl eq_refl).
  - assert (Hrun : exists m,
               returns (SimulateMsgBeginRedelegate
                          (memstore.AccountKeeper scenario.chain)
                          (memstore.Keeper scenario.chain) memstore.accepting
                          scenario.ctx [scenario.alice] "chain") [0; 0; 1; 1]
                 (simulation.NewOperationMsg (types.BeginRedelegate m) true "",
                  [], None)).
    { eexists. eexists. cbv. reflexivity. }
    destruct Hrun as [m Hrun].
    destruct (proj2 (redelegate_guards _ _ _ _ _ _ _) _ m Hrun eq_refl)
      as (Hrecv & Hneq & Hmax & _).
    exists (simulation.NewOperationMsg (types.BeginRedelegate m) true "",
            [], None), m.
    repeat split; assumption.
Defined.

(** X12. A successful SimulateMsgBeginRedelegate carries an amount that is
    strictly positive and at most the tokens the selected delegation's shares
    are worth at the source validator's rate, truncated; and when that worth
    is not positive the generator returns NoOp. *)
Theorem redelegate_amount_bounded :
  forall ak k app ctx accs chainID r,
    (forall o m,
        returns (SimulateMsgBeginRedelegate ak k app ctx accs chainID) r o ->
        isSuccess o (types.BeginRedelegate m) ->
        exists srcVal delegation tokens,
          In srcVal (keeper.GetAllValidators k ctx)
          /\ In delegation
               (keeper.GetValidatorDelegations k ctx (types.GetOperator srcVal))
          /\ types.r_ValidatorSrcAddress m = types.GetOperator srcVal
          /\ types.r_DelegatorAddress m = types.GetDelegatorAddr delegation
          /\ types.TokensFromShares srcVal (types.GetShares delegation)
             = Ok tokens
          /\ 0 < sdk.Amount (types.r_Amount m) <= sdk.Dec_TruncateInt tokens)
    /\ (forall srcVal r1 i r2 delegation destVal ok r3 tokens,
           keeper.RandomValidator k ctx r = Ok ((srcVal, true), r1) ->
           Intn (len (keeper.GetValidatorDelegations k ctx
                        (types.GetOperator srcVal))) r1 = Ok (i, r2) ->
           index (keeper.GetValidatorDelegations k ctx
                    (types.GetOperator srcVal)) i = Ok delegation ->
           keeper.RandomValidator k ctx r2 = Ok ((destVal, ok), r3) ->
           types.TokensFromShares srcVal (types.GetShares delegation)
           = Ok tokens ->
           sdk.Dec_TruncateInt tokens <= 0 ->
           exists o,
             returns (SimulateMsgBeginRedelegate ak k app ctx accs chainID) r o
             /\ isNoOp o).
Proof.
  intros ak k app ctx accs chainID r. split.
  - intros o m Hrun Hs.
    destruct (redelegate_run _ _ _ _ _ _ _ _ Hrun) as [H|[H|H]].
    + rewrite H in Hs. exfalso. eapply not_success_noop; eauto.
    + destruct H as [e ->]. exfalso. eapply not_success_noop; eauto.
    + destruct H as (v & v0 & d & t & amt & key & acc & f
                     & Hsrc & _ & Hdel & _ & _ & Htok & Hamt & _ & _ & _ & ->).
      apply success_msg in Hs. inversion Hs; subst m. simpl.
      exists v, d, t. repeat split; auto; lia.
  - intros srcVal r1 i r2 delegation destVal ok r3 tokens
      Hsrc Hi Hdel Hdest Htok Hle.
    exists (simulation.NoOpMsg types.ModuleName, [], None).
    split; [|reflexivity]. unfold returns, SimulateMsgBeginRedelegate.
    forward Hsrc. cbn [negb]. forward Hi. forward_lift Hdel.
    destruct (keeper.HasReceivingRedelegation k ctx _ _); [eexists; reflexivity|].
    forward Hdest.
    destruct ok; cbn [negb]; [|eexists; reflexivity].
    destruct (sdk.Equals _ _ || types.InvalidExRate destVal || _);
      [eexists; reflexivity|].
    forward_lift Htok. rewrite (not_positive _ Hle). eexists; reflexivity.
Qed.

Lemma redelegate_amount_bounded_witness :
  exists o m srcVal delegation tokens,
    returns (SimulateMsgBeginRedelegate (memstore.AccountKeeper scenario.chain)
               (memstore.Keeper scenario.chain) memstore.accepting scenario.ctx
               [scenario.alice] "chain") [0; 0; 1; 1] o
    /\ isSuccess o (types.BeginRedelegate m)
    /\ In srcVal (keeper.GetAllValidators (memstore.Keeper scenario.chain)
                    scenario.ctx)
    /\ In delegation
         (keeper.GetValidatorDelegations (memstore.Keeper scenario.chain)
            scenario.ctx (types.GetOperator srcVal))
    /\ types.r_ValidatorSrcAddress m = types.GetOperator srcVal
    /\ types.r_DelegatorAddress m = types.GetDelegatorAddr delegation
    /\ types.TokensFromShares srcVal (types.GetShares delegation) = Ok tokens
    /\ 0 < sdk.Amount (types.r_Amount m) <= sdk.Dec_TruncateInt tokens.
Proof.
  assert (Hrun : exists m,
             returns (SimulateMsgBeginRedelegate
                        (memstore.AccountKeeper scenario.chain)
                        (memstore.Keeper scenario.chain) memstore.accepting
                        scenario.ctx [scenario.alice] "chain") [0; 0; 1; 1]
               (simulation.NewOperationMsg (types.BeginRedelegate m) true "",
                [], None)).
  { eexists. eexists. cbv. reflexivity. }
  destruct Hrun as [m Hrun].
  destruct (proj1 (redelegate_amount_bounded _ _ _ _ _ _ _) _ m Hrun eq_refl)
    as (srcVal & delegation & tokens & H).
  exists (simulation.NewOperationMsg (types.BeginRedelegate m) true "", [], None),
    m, srcVal, delegation, tokens.
  split; [exact Hrun|]. split; [reflexivity|exact H].
Defined.

(** ** The first account at an address, and nil keys *)

Lemma rangeAccs_first pre acc post delAddr :
  (forall a, In a pre -> sdk.Equals (simulation.Address a) delAddr = false) ->
  sdk.Equals (simulation.Address acc) delAddr = true ->
  rangeAccs (pre ++ acc :: post) delAddr = acc.
Proof.
  induction pre as [|a pre IH]; intros Hpre Hacc; simpl.
  - rewrite Hacc. reflexivity.
  - rewrite (Hpre a) by (left; reflexivity).
    apply IH; [|exact Hacc]. intros a' Hin. apply Hpre. right. exact Hin.
Qed.

(** X13. The account loop of SimulateMsgUndelegate and
    SimulateMsgBeginRedelegate stops at the first simulation account at the
    delegator's address.  When that account's private key is nil the
    generators never succeed, whatever accounts follow it in the list: the
    delegator is taken as absent. *)
Theorem nil_key_is_absent :
  forall ak k app ctx pre acc post chainID r validator r1 i r2 delegation,
    keeper.RandomValidator k ctx r = Ok ((validator, true), r1) ->
    Intn (len (keeper.GetValidatorDelegations k ctx
                 (types.OperatorAddress validator))) r1 = Ok (i, r2) ->
    index (keeper.GetValidatorDelegations k ctx
             (types.OperatorAddress validator)) i = Ok delegation ->
    (forall a, In a pre ->
       sdk.Equals (simulation.Address a) (types.GetDelegatorAddr delegation)
       = false) ->
    sdk.Equals (simulation.Address acc) (types.GetDelegatorAddr delegation)
    = true ->
    simulation.PrivKey acc = None ->
    rangeAccs (pre ++ acc :: post) (types.GetDelegatorAddr delegation) = acc
    /\ (forall o,
           returns (SimulateMsgUndelegate ak k app ctx (pre ++ acc :: post)
                      chainID) r o ->
           isNoOp o \/ isError o)
    /\ (forall o,
           returns (SimulateMsgBeginRedelegate ak k app ctx (pre ++ acc :: post)
                      chainID) r o ->
           isNoOp o \/ isError o).
Proof.
  intros ak k app ctx pre acc post chainID r validator r1 i r2 delegation
    Hval Hi Hdel Hpre Hacc Hnil.
  pose proof (rangeAccs_first pre acc post _ Hpre Hacc) as Hfirst.
  split; [exact Hfirst|]. split.
  - intros o [r' H]. unfold SimulateMsgUndelegate in H.
    forward_in H Hval. cbn [negb] in H. forward_in H Hi. forward_lift_in H Hdel.
    rewrite Hfirst, Hnil in H.
    run_all H; skipped_or_failed.
  - intros o [r' H]. unfold SimulateMsgBeginRedelegate in H.
    forward_in H Hval. cbn [negb] in H. forward_in H Hi. forward_lift_in H Hdel.
    unfold types.GetOperator in H. rewrite Hfirst, Hnil in H.
    run_all H; skipped_or_failed.
Qed.

Lemma nil_key_is_absent_witness :
  rangeAccs cases.keyless "alice" = cases.aliceNoKey
  /\ SimulateMsgUndelegate (memstore.AccountKeeper scenario.single)
       (memstore.Keeper scenario.single) memstore.accepting scenario.ctx
       cases.keyless "chain" [0; 0; 2]
     = Ok ((simulation.NoOpMsg types.ModuleName, [],
            Some "delegation addr: alice does not exist in simulation accounts"),
           []).
Proof.
  split.
  - exact (proj1 (nil_key_is_absent (memstore.AccountKeeper scenario.single)
                    (memstore.Keeper scenario.single) memstore.accepting
                    scenario.ctx nil cases.aliceNoKey (scenario.alice :: nil)
                    "chain" [0; 0; 2] scenario.val1 [0; 2] 0 [2]
                    scenario.aliceOnVal1 eq_refl eq_refl eq_refl
                    (fun a (H : In a nil) => match H with end)
                    eq_refl eq_refl)).
  - reflexivity.
Defined.

(** ** Accounts the account keeper does not know *)

(** X14. SimulateMsgCreateValidator and SimulateMsgDelegate read the coins of
    the drawn account without checking that the account keeper returned an
    account: when it returns nil for the drawn address, the generator
    panics on the nil account instead of returning. *)
Theorem missing_account_panics :
  forall ak k app ctx accs chainID r simAccount idx r1,
    simulation.RandomAcc accs r = Ok ((simAccount, idx), r1) ->
    types.GetAccount ak ctx (simulation.Address simAccount) = None ->
    (snd (keeper.GetValidator k ctx
            (sdk.ValAddress_of (simulation.Address simAccount))) = false ->
     SimulateMsgCreateValidator ak k app ctx accs chainID r
     = Panic "invalid memory address or nil pointer dereference")
    /\ (forall val r2,
           keeper.RandomValidator k ctx r1 = Ok ((val, true), r2) ->
           types.InvalidExRate val = false ->
           SimulateMsgDelegate ak k app ctx accs chainID r
           = Panic "invalid memory address or nil pointer dereference").
Proof.
  intros ak k app ctx accs chainID r simAccount idx r1 Hacc Hnone. split.
  - intros Hfound. unfold SimulateMsgCreateValidator. forward Hacc.
    destruct (keeper.GetValidator k ctx _) as [v found]. simpl in Hfound.
    subst found. rewrite Hnone. reflexivity.
  - intros val r2 Hval Hrate. unfold SimulateMsgDelegate.
    rewrite (len_nonempty val) by (eapply RandomValidator_In; eauto).
    forward Hacc. forward Hval. cbn [negb]. rewrite Hrate.
    rewrite Hnone. reflexivity.
Qed.

Lemma missing_account_panics_witness :
  SimulateMsgCreateValidator cases.noAccounts (memstore.Keeper scenario.chain)
    memstore.accepting scenario.ctx [scenario.alice] "chain" [0; 4]
  = Panic "invalid memory address or nil pointer dereference".
Proof.
  exact (proj1 (missing_account_panics cases.noAccounts
                  (memstore.Keeper scenario.chain) memstore.accepting
                  scenario.ctx [scenario.alice] "chain" [0; 4]
                  scenario.alice 0 [4] eq_refl eq_refl) eq_refl).
Defined.
